(** * Session state and remote-call handlers of the Tavus avatar agent

    A shallow embedding of [tavus.py]: the dataclasses, the [UserData]
    record store with its grading method, the agent tools
    [create_flash_card] and [create_quiz], and the inbound handler
    [handle_submit_quiz].

    Python objects that the code mutates in place live in one shared
    [World]; a reference to a stored flash card is its position in the
    store.  External collaborators (the identifier generator, the JSON
    codec, the room transport, the speech sink) are the fields of a
    [Platform].  Logging calls are left out: they have no effect on the
    store, on what is sent, or on what a function returns. *)

From Stdlib Require Import ZArith String Ascii PrimFloat.
From stdpp Require Import base list strings pretty.

Local Open Scope string_scope.
Local Open Scope list_scope.

(** ** Python values *)

(** What [json.loads] can return, and what [json.dumps] is applied to.
    A [PyDict] lists its items in insertion order; a dict that Python
    builds never holds one key twice. *)
#[warnings="-register-all"]
Inductive pyval : Type :=
| PyNone
| PyBool (b : bool)
| PyInt (z : Z)
| PyFloat (f : float)
| PyStr (s : string)
| PyList (l : list pyval)
| PyDict (d : list (string * pyval)).

(** [bool(v)]: the truth value Python gives [v] in [if v] and [not v]. *)
Definition py_truthy (v : pyval) : bool :=
  match v with
  | PyNone => false
  | PyBool b => b
  | PyInt z => negb (Z.eqb z 0)
  | PyFloat f => negb (PrimFloat.eqb f PrimFloat.zero)
  | PyStr s => negb (String.eqb s "")
  | PyList l => match l with [] => false | _ => true end
  | PyDict d => match d with [] => false | _ => true end
  end.

(** [s == v] for a [str] on the left: only an equal [str] compares equal. *)
Definition py_str_eq (s : string) (v : pyval) : bool :=
  match v with
  | PyStr t => String.eqb s t
  | _ => false
  end.

(** [type(v).__name__] *)
Definition py_type_name (v : pyval) : string :=
  match v with
  | PyNone => "NoneType"
  | PyBool _ => "bool"
  | PyInt _ => "int"
  | PyFloat _ => "float"
  | PyStr _ => "str"
  | PyList _ => "list"
  | PyDict _ => "dict"
  end.

(** Exceptions, each with the text [str(e)] gives.  All are subclasses
    of [Exception]; task cancellation and the like are not modelled. *)
Inductive exn : Type :=
| JSONDecodeError (msg : string)
| AttributeError (msg : string)
| RpcError (msg : string)
| RuntimeError (msg : string).

Definition str_exn (e : exn) : string :=
  match e with
  | JSONDecodeError m | AttributeError m | RpcError m | RuntimeError m => m
  end.

Definition no_attribute (v : pyval) (attr : string) : exn :=
  AttributeError ("'" +:+ py_type_name v +:+ "' object has no attribute '" +:+ attr +:+ "'").

(** [d.get(key, default)] on the items of a dict. *)
Fixpoint dict_get (d : list (string * pyval)) (key : string) (default : pyval) : pyval :=
  match d with
  | [] => default
  | (k, v) :: d' => if String.eqb k key then v else dict_get d' key default
  end.

(** [v.get(key, default)] on any value: only a dict has the method. *)
Definition py_get (v : pyval) (key : string) (default : pyval) : exn + pyval :=
  match v with
  | PyDict d => inr (dict_get d key default)
  | _ => inl (no_attribute v "get")
  end.

(** Whether some dict inside [v] has the key. *)
Fixpoint py_has_key (key : string) (v : pyval) : bool :=
  match v with
  | PyList l => existsb (py_has_key key) l
  | PyDict d => existsb (fun kv => String.eqb (fst kv) key || py_has_key key (snd kv)) d
  | _ => false
  end.

(** ** Dataclasses *)

Module QuizAnswerDict.
Record t : Type := mk { text : string; is_correct : bool }.
End QuizAnswerDict.

Module QuizQuestionDict.
Record t : Type := mk { text : string; answers : list QuizAnswerDict.t }.
End QuizQuestionDict.

Module FlashCard.
Record t : Type := mk {
  id : string;
  question : string;
  answer : string;
  is_flipped : bool
}.
End FlashCard.

Module QuizAnswer.
Record t : Type := mk { id : string; text : string; is_correct : bool }.
End QuizAnswer.

Module QuizQuestion.
Record t : Type := mk { id : string; text : string; answers : list QuizAnswer.t }.
End QuizQuestion.

Module Quiz.
Record t : Type := mk { id : string; questions : list QuizQuestion.t }.
End Quiz.

(** ** The room *)

Record RemoteParticipant : Type := { identity : string }.

(** [remote_participants] is a dict from identity to participant, in the
    order the transport enumerates it. *)
Record Room : Type := { remote_participants : list (string * RemoteParticipant) }.

Record JobContext : Type := { room : option Room }.

Record UserData : Type := {
  ctx : option JobContext;
  flash_cards : list FlashCard.t;
  quizzes : list Quiz.t
}.

(** One [perform_rpc] call. *)
Record RpcCall : Type := {
  destination_identity : string;
  method : string;
  payload : string
}.

(** ** The world *)

Record World : Type := {
  userdata : UserData;
  uuid_drawn : nat;          (* how many identifiers the session has drawn *)
  rpc_log : list RpcCall;    (* the calls handed to [perform_rpc], oldest first *)
  spoken : list string       (* the texts handed to [session.say], oldest first *)
}.

(** The services the code calls and does not implement. *)
Class Platform : Type := {
  (* [str(uuid.uuid4())] at the n-th draw of the session *)
  uuid4 : nat -> string;
  json_loads : string -> exn + pyval;
  json_dumps : pyval -> string;
  (* what [perform_rpc] does with a call, given the calls made before:
     it returns the peer's reply or raises *)
  perform_rpc_outcome : list RpcCall -> RpcCall -> exn + string;
  (* whether [session.say] raises, given the texts said before *)
  say_outcome : list string -> string -> option exn
}.

(** ** Computations: shared state and exceptions *)

(** A computation runs in a world, changes it, and returns or raises.
    What it changed before raising stays changed. *)
Definition M (A : Type) : Type := World -> World * (exn + A).

Definition ret {A} (a : A) : M A := fun w => (w, inr a).

Definition raise {A} (e : exn) : M A := fun w => (w, inl e).

Definition bind {A B} (m : M A) (k : A -> M B) : M B :=
  fun w =>
    match m w with
    | (w', inr a) => k a w'
    | (w', inl e) => (w', inl e)
    end.

Declare Scope py_scope.
Delimit Scope py_scope with py.
Notation "x <- m ;; k" := (bind m (fun x => k))
  (at level 100, m at next level, right associativity) : py_scope.
Notation "m ;; k" := (bind m (fun _ => k))
  (at level 100, right associativity) : py_scope.
Local Open Scope py_scope.

(** [try: m  except Exception as e: h e] *)
Definition try_except {A} (m : M A) (h : exn -> M A) : M A :=
  fun w =>
    match m w with
    | (w', inr a) => (w', inr a)
    | (w', inl e) => h e w'
    end.

Definition get_world : M World := fun w => (w, inr w).

Definition lift {A} (r : exn + A) : M A := fun w => (w, r).

Definition set_userdata (f : UserData -> UserData) : M unit :=
  fun w =>
    ({| userdata := f (userdata w); uuid_drawn := uuid_drawn w;
        rpc_log := rpc_log w; spoken := spoken w |}, inr tt).

(** A [for] loop that appends one value per element to a result list. *)
Fixpoint for_each {A B} (body : A -> M B) (l : list A) : M (list B) :=
  match l with
  | [] => ret []
  | x :: l' =>
      y <- body x ;;
      ys <- for_each body l' ;;
      ret (y :: ys)
  end.

Definition set_flash_cards (cards : list FlashCard.t) (ud : UserData) : UserData :=
  {| ctx := ctx ud; flash_cards := cards; quizzes := quizzes ud |}.

Definition set_quizzes (qs : list Quiz.t) (ud : UserData) : UserData :=
  {| ctx := ctx ud; flash_cards := flash_cards ud; quizzes := qs |}.

Definition set_is_flipped (b : bool) (card : FlashCard.t) : FlashCard.t :=
  {| FlashCard.id := FlashCard.id card;
     FlashCard.question := FlashCard.question card;
     FlashCard.answer := FlashCard.answer card;
     FlashCard.is_flipped := b |}.

Section Program.
Context {P : Platform}.

(** [str(uuid.uuid4())] *)
Definition uuid_str : M string :=
  fun w =>
    ({| userdata := userdata w; uuid_drawn := S (uuid_drawn w);
        rpc_log := rpc_log w; spoken := spoken w |}, inr (uuid4 (uuid_drawn w))).

(** [await room.local_participant.perform_rpc(...)] *)
Definition perform_rpc (dest meth body : string) : M string :=
  fun w =>
    let call := {| destination_identity := dest; method := meth; payload := body |} in
    ({| userdata := userdata w; uuid_drawn := uuid_drawn w;
        rpc_log := rpc_log w ++ [call]; spoken := spoken w |},
     perform_rpc_outcome (rpc_log w) call).

(** [session.say(text)] *)
Definition say (text : string) : M unit :=
  fun w =>
    match say_outcome (spoken w) text with
    | Some e => (w, inl e)
    | None =>
        ({| userdata := userdata w; uuid_drawn := uuid_drawn w;
            rpc_log := rpc_log w; spoken := spoken w ++ [text] |}, inr tt)
    end.

(** ** [UserData]: the record store *)

Definition add_flash_card (question answer : string) : M FlashCard.t :=
  i <- uuid_str ;;
  let card := FlashCard.mk i question answer false in
  set_userdata (fun ud => set_flash_cards (flash_cards ud ++ [card]) ud) ;;
  ret card.

(** The loop of [get_flash_card]: the position and the value of the first
    card whose id equals [card_id]. *)
Definition find_flash_card (card_id : pyval) (ud : UserData) : option (nat * FlashCard.t) :=
  list_find (fun card => py_str_eq (FlashCard.id card) card_id = true) (flash_cards ud).

Definition get_flash_card (card_id : pyval) : M (option FlashCard.t) :=
  w <- get_world ;;
  ret (snd <$> find_flash_card card_id (userdata w)).

(** [card.is_flipped = not card.is_flipped] writes to the stored object:
    the card found is replaced at its position. *)
Definition flip_flash_card (card_id : pyval) : M (option FlashCard.t) :=
  w <- get_world ;;
  match find_flash_card card_id (userdata w) with
  | Some (i, card) =>
      let card' := set_is_flipped (negb (FlashCard.is_flipped card)) card in
      set_userdata (fun ud => set_flash_cards (<[i := card']> (flash_cards ud)) ud) ;;
      ret (Some card')
  | None => ret None
  end.

(** The bodies of the two loops of [add_quiz]. *)
Definition new_answer (a : QuizAnswerDict.t) : M QuizAnswer.t :=
  i <- uuid_str ;;
  ret (QuizAnswer.mk i (QuizAnswerDict.text a) (QuizAnswerDict.is_correct a)).

Definition new_question (q : QuizQuestionDict.t) : M QuizQuestion.t :=
  answers <- for_each new_answer (QuizQuestionDict.answers q) ;;
  i <- uuid_str ;;
  ret (QuizQuestion.mk i (QuizQuestionDict.text q) answers).

Definition add_quiz (questions : list QuizQuestionDict.t) : M Quiz.t :=
  quiz_questions <- for_each new_question questions ;;
  i <- uuid_str ;;
  let quiz := Quiz.mk i quiz_questions in
  set_userdata (fun ud => set_quizzes (quizzes ud ++ [quiz]) ud) ;;
  ret quiz.

Definition find_quiz (quiz_id : pyval) (ud : UserData) : option Quiz.t :=
  snd <$> list_find (fun quiz => py_str_eq (Quiz.id quiz) quiz_id = true) (quizzes ud).

Definition get_quiz (quiz_id : pyval) : M (option Quiz.t) :=
  w <- get_world ;;
  ret (find_quiz quiz_id (userdata w)).

(** The inner loop of [check_quiz_answers]: a later match overwrites an
    earlier one, for the selected and for the correct answer alike. *)
Definition scan_answers (user_answer_id : pyval) (answers : list QuizAnswer.t)
  : option QuizAnswer.t * option QuizAnswer.t :=
  fold_left (fun '(selected_answer, correct_answer) answer =>
               (if py_str_eq (QuizAnswer.id answer) user_answer_id
                then Some answer else selected_answer,
                if QuizAnswer.is_correct answer
                then Some answer else correct_answer))
            answers (None, None).

(** One result tuple.  [is_correct] is the value of
    [selected_answer and selected_answer.is_correct]: [None] when nothing
    was selected, else the selected option's flag. *)
Record QuizResult : Type := {
  res_question : QuizQuestion.t;
  res_selected_answer : option QuizAnswer.t;
  res_correct_answer : option QuizAnswer.t;
  res_is_correct : option bool
}.

(** The truth value of the fourth component. *)
Definition result_truthy (r : QuizResult) : bool :=
  match res_is_correct r with
  | Some b => b
  | None => false
  end.

Definition check_quiz_answers (quiz_id user_answers : pyval) : M (list QuizResult) :=
  quiz <- get_quiz quiz_id ;;
  match quiz with
  | None => ret []
  | Some quiz =>
      for_each (fun question =>
        user_answer_id <- lift (py_get user_answers (QuizQuestion.id question) PyNone) ;;
        let '(selected_answer, correct_answer) :=
          scan_answers user_answer_id (QuizQuestion.answers question) in
        let is_correct := QuizAnswer.is_correct <$> selected_answer in
        ret {| res_question := question;
               res_selected_answer := selected_answer;
               res_correct_answer := correct_answer;
               res_is_correct := is_correct |})
        (Quiz.questions quiz)
  end.

(** ** [AvatarAgent]: the tools that notify the peer *)

(** [next(iter(participants.values()), None)] *)
Definition first_participant (participants : list (string * RemoteParticipant))
  : option RemoteParticipant :=
  head (map snd participants).

(** The dict sent for a card; [index] is [len(userdata.flash_cards) - 1]
    at the time the dict is built. *)
Definition flash_card_payload (card : FlashCard.t) (cards : list FlashCard.t) : pyval :=
  PyDict [("action", PyStr "show");
          ("id", PyStr (FlashCard.id card));
          ("question", PyStr (FlashCard.question card));
          ("answer", PyStr (FlashCard.answer card));
          ("index", PyInt (Z.of_nat (length cards) - 1))].

Definition create_flash_card (question answer : string) : M string :=
  card <- add_flash_card question answer ;;
  w <- get_world ;;
  match ctx (userdata w) with
  | None => ret "Created a flash card, but couldn't access the room to send it."
  | Some c =>
  match room c with
  | None => ret "Created a flash card, but couldn't access the room to send it."
  | Some room =>
      let participants := remote_participants room in
      match participants with
      | [] => ret "Created a flash card, but no participants found to send it to."
      | _ :: _ =>
          match first_participant participants with
          | None => ret "Created a flash card, but couldn't get the first participant."
          | Some participant =>
              let payload := flash_card_payload card (flash_cards (userdata w)) in
              let json_payload := json_dumps payload in
              perform_rpc (identity participant) "client.flashcard" json_payload ;;
              ret ("I've created a flash card with the question: '" +:+ question +:+ "'")
          end
      end
  end
  end.

(** The dicts built under "Format questions for client". *)
Definition client_answer (a : QuizAnswer.t) : pyval :=
  PyDict [("id", PyStr (QuizAnswer.id a)); ("text", PyStr (QuizAnswer.text a))].

Definition client_question (q : QuizQuestion.t) : pyval :=
  PyDict [("id", PyStr (QuizQuestion.id q));
          ("text", PyStr (QuizQuestion.text q));
          ("answers", PyList (map client_answer (QuizQuestion.answers q)))].

Definition quiz_payload (quiz : Quiz.t) : pyval :=
  PyDict [("action", PyStr "show");
          ("id", PyStr (Quiz.id quiz));
          ("questions", PyList (map client_question (Quiz.questions quiz)))].

Definition create_quiz (questions : list QuizQuestionDict.t) : M string :=
  quiz <- add_quiz questions ;;
  w <- get_world ;;
  match ctx (userdata w) with
  | None => ret "Created a quiz, but couldn't access the room to send it."
  | Some c =>
  match room c with
  | None => ret "Created a quiz, but couldn't access the room to send it."
  | Some room =>
      let participants := remote_participants room in
      match participants with
      | [] => ret "Created a quiz, but no participants found to send it to."
      | _ :: _ =>
          match first_participant participants with
          | None => ret "Created a quiz, but couldn't get the first participant."
          | Some participant =>
              let json_payload := json_dumps (quiz_payload quiz) in
              perform_rpc (identity participant) "client.quiz" json_payload ;;
              ret ("I've created a quiz with " +:+ pretty (length questions)
                   +:+ " questions. Please answer them when you're ready.")
          end
      end
  end
  end.

(** ** The inbound handler [handle_submit_quiz] *)

(** ["\n"], and the check and cross marks in UTF-8. *)
Definition nl : string := String "010"%char "".
Definition check_mark : string := String "226"%char (String "156"%char (String "147"%char "")).
Definition cross_mark : string := String "226"%char (String "156"%char (String "151"%char "")).

(** [a.text] where [a] may be [None]. *)
Definition answer_text (a : option QuizAnswer.t) : M string :=
  match a with
  | Some a => ret (QuizAnswer.text a)
  | None => raise (no_attribute PyNone "text")
  end.

(** The body of the feedback loop, for one result tuple.  The handler
    closes over the job context of [entrypoint] and is registered through
    [ctx.room.local_participant], so [ctx.room] is a room whenever it
    runs: [rm] is that room at the time of the call. *)
Definition question_feedback (rm : Room) (r : QuizResult) : M string :=
  let question := res_question r in
  if result_truthy r then
    selected_text <- answer_text (res_selected_answer r) ;;
    ret ("Question: " +:+ QuizQuestion.text question +:+ nl +:+ "Your answer: "
         +:+ selected_text +:+ " " +:+ check_mark +:+ " Correct!")
  else
    let shown := match res_selected_answer r with
                 | Some a => QuizAnswer.text a
                 | None => "None"
                 end in
    correct_text <- answer_text (res_correct_answer r) ;;
    let feedback :=
      "Question: " +:+ QuizQuestion.text question +:+ nl +:+ "Your answer: " +:+ shown
      +:+ " " +:+ cross_mark +:+ " Incorrect. The correct answer is: " +:+ correct_text in
    (* correct_answer is not None here, or the line above had raised *)
    card <- add_flash_card (QuizQuestion.text question) correct_text ;;
    match first_participant (remote_participants rm) with
    | Some participant =>
        w <- get_world ;;
        let flash_payload := flash_card_payload card (flash_cards (userdata w)) in
        let json_flash_payload := json_dumps flash_payload in
        perform_rpc (identity participant) "client.flashcard" json_flash_payload ;;
        ret feedback
    | None => ret feedback
    end.

Definition submit_quiz_body (rm : Room) (payload_str : string) : M string :=
  payload_data <- lift (json_loads payload_str) ;;
  quiz_id <- lift (py_get payload_data "id" PyNone) ;;
  user_answers <- lift (py_get payload_data "answers" (PyDict [])) ;;
  if negb (py_truthy quiz_id) then
    ret "error: No quiz ID found in payload"
  else
    quiz_results <- check_quiz_answers quiz_id user_answers ;;
    match quiz_results with
    | [] => ret "error: Quiz not found"
    | _ :: _ =>
        let correct_count := length (filter (fun r => result_truthy r = true) quiz_results) in
        let total_count := length quiz_results in
        let result_summary :=
          "You got " +:+ pretty correct_count +:+ " out of " +:+ pretty total_count
          +:+ " questions correct." in
        feedback_details <- for_each (question_feedback rm) quiz_results ;;
        let detailed_feedback := String.concat (nl +:+ nl) feedback_details in
        let full_response := result_summary +:+ nl +:+ nl +:+ detailed_feedback in
        say full_response ;;
        ret "success"
    end.

(** Both [except] clauses return [f"error: {str(e)}"]. *)
Definition handle_submit_quiz (rm : Room) (payload_str : string) : M string :=
  try_except (submit_quiz_body rm payload_str)
             (fun e => ret ("error: " +:+ str_exn e)).

End Program.

(** ** The record-store operations as commands *)

Inductive StoreOp : Type :=
| AddFlashCard (question answer : string)
| GetFlashCard (card_id : pyval)
| FlipFlashCard (card_id : pyval)
| AddQuiz (questions : list QuizQuestionDict.t)
| GetQuiz (quiz_id : pyval)
| Grade (quiz_id user_answers : pyval).

(** The world an operation leaves behind, whatever it returns or raises. *)
Definition run_op `{Platform} (op : StoreOp) (w : World) : World :=
  match op with
  | AddFlashCard question answer => fst (add_flash_card question answer w)
  | GetFlashCard card_id => fst (get_flash_card card_id w)
  | FlipFlashCard card_id => fst (flip_flash_card card_id w)
  | AddQuiz questions => fst (add_quiz questions w)
  | GetQuiz quiz_id => fst (get_quiz quiz_id w)
  | Grade quiz_id user_answers => fst (check_quiz_answers quiz_id user_answers w)
  end.

(** The identifiers of a quiz in the order [add_quiz] draws them: for each
    question its options' and then its own, and the quiz's last. *)
Definition question_ids (q : QuizQuestion.t) : list string :=
  (QuizAnswer.id <$> QuizQuestion.answers q) ++ [QuizQuestion.id q].

Definition quiz_ids (quiz : Quiz.t) : list string :=
  concat (question_ids <$> Quiz.questions quiz) ++ [Quiz.id quiz].

(** An input question matches a stored one: same text, and the options
    pairwise in order with the same text and flag. *)
Definition answer_matches (a : QuizAnswerDict.t) (b : QuizAnswer.t) : Prop :=
  QuizAnswer.text b = QuizAnswerDict.text a /\
  QuizAnswer.is_correct b = QuizAnswerDict.is_correct a.

Definition question_matches (q : QuizQuestionDict.t) (r : QuizQuestion.t) : Prop :=
  QuizQuestion.text r = QuizQuestionDict.text q /\
  Forall2 answer_matches (QuizQuestionDict.answers q) (QuizQuestion.answers r).

(** An input question with its flags blanked, and the same for what is
    stored. *)
Definition blank_answer (a : QuizAnswerDict.t) : QuizAnswerDict.t :=
  QuizAnswerDict.mk (QuizAnswerDict.text a) false.

Definition blank_flags (q : QuizQuestionDict.t) : QuizQuestionDict.t :=
  QuizQuestionDict.mk (QuizQuestionDict.text q)
    (blank_answer <$> QuizQuestionDict.answers q).

Definition hide_answer (a : QuizAnswer.t) : QuizAnswer.t :=
  QuizAnswer.mk (QuizAnswer.id a) (QuizAnswer.text a) false.

Definition hide_question (q : QuizQuestion.t) : QuizQuestion.t :=
  QuizQuestion.mk (QuizQuestion.id q) (QuizQuestion.text q)
    (hide_answer <$> QuizQuestion.answers q).

Definition hide_flags (quiz : Quiz.t) : Quiz.t :=
  Quiz.mk (Quiz.id quiz) (hide_question <$> Quiz.questions quiz).

(** No peer can be addressed: no job context, no room, or an empty room. *)
Definition no_peer (ud : UserData) : Prop :=
  match ctx ud with
  | None => True
  | Some c =>
      match room c with
      | None => True
      | Some rm => remote_participants rm = []
      end
  end.

(** ** A concrete platform, for running the program on examples *)

Definition dq : string := String "034"%char "".

(** A plain renderer of values (no escaping). *)
Fixpoint demo_dumps (v : pyval) : string :=
  match v with
  | PyNone => "null"
  | PyBool b => if b then "true" else "false"
  | PyInt z => pretty z
  | PyFloat _ => "0.0"
  | PyStr s => dq +:+ s +:+ dq
  | PyList l => "[" +:+ String.concat ", " (map demo_dumps l) +:+ "]"
  | PyDict d =>
      "{" +:+ String.concat ", "
                (map (fun kv => dq +:+ fst kv +:+ dq +:+ ": " +:+ demo_dumps (snd kv)) d)
      +:+ "}"
  end.

(** The submissions the examples use. *)
Definition submission (quiz_id : string) (answers : list (string * pyval)) : pyval :=
  PyDict [("id", PyStr quiz_id); ("answers", PyDict answers)].

Definition demo_submissions : list pyval :=
  [ submission "uuid-2" [("uuid-1", PyStr "uuid-0")];
    submission "uuid-3" [("uuid-2", PyStr "uuid-1")];
    submission "uuid-3" [("uuid-2", PyStr "uuid-0")];
    submission "uuid-0" [];
    submission "uuid-9" [] ].

(** A decoder that knows the renderings of [demo_submissions]. *)
Definition demo_loads (s : string) : exn + pyval :=
  match find (fun v => String.eqb (demo_dumps v) s) demo_submissions with
  | Some v => inr v
  | None => inl (JSONDecodeError "Expecting value: line 1 column 1 (char 0)")
  end.

Definition demo_uuid (n : nat) : string := "uuid-" +:+ pretty n.

(** Every call and every utterance goes through. *)
Definition reliable : Platform :=
  {| uuid4 := demo_uuid;
     json_loads := demo_loads;
     json_dumps := demo_dumps;
     perform_rpc_outcome := fun _ _ => inr "";
     say_outcome := fun _ _ => None |}.

(** The peer never answers. *)
Definition peer_silent : Platform :=
  {| uuid4 := demo_uuid;
     json_loads := demo_loads;
     json_dumps := demo_dumps;
     perform_rpc_outcome := fun _ _ => inl (RpcError "Response timeout");
     say_outcome := fun _ _ => None |}.


Definition student : RemoteParticipant := {| identity := "student" |}.
Definition classroom : Room := {| remote_participants := [("student", student)] |}.
Definition empty_room : Room := {| remote_participants := [] |}.

Definition new_world (c : option JobContext) : World :=
  {| userdata := {| ctx := c; flash_cards := []; quizzes := [] |};
     uuid_drawn := 0; rpc_log := []; spoken := [] |}.

Definition in_classroom : World := new_world (Some {| room := Some classroom |}).
Definition offline : World := new_world None.

(** One question whose only option is not flagged correct. *)
Definition no_correct_option : list QuizQuestionDict.t :=
  [ QuizQuestionDict.mk "What is kerning?"
      [ QuizAnswerDict.mk "A typeface" false ] ].

(** One question with a wrong and a right option. *)
Definition kerning_quiz : list QuizQuestionDict.t :=
  [ QuizQuestionDict.mk "What is kerning?"
      [ QuizAnswerDict.mk "A typeface" false;
        QuizAnswerDict.mk "The space between letter pairs" true ] ].


(** ** Vocabulary of the statements *)

(** A world after its flash cards were replaced, and after [k] more
    identifiers were drawn. *)
Definition with_flash_cards (cards : list FlashCard.t) (w : World) : World :=
  {| userdata := set_flash_cards cards (userdata w); uuid_drawn := uuid_drawn w;
     rpc_log := rpc_log w; spoken := spoken w |}.

Definition with_quizzes (qs : list Quiz.t) (w : World) : World :=
  {| userdata := set_quizzes qs (userdata w); uuid_drawn := uuid_drawn w;
     rpc_log := rpc_log w; spoken := spoken w |}.

Definition drew (k : nat) (w : World) : World :=
  {| userdata := userdata w; uuid_drawn := k + uuid_drawn w;
     rpc_log := rpc_log w; spoken := spoken w |}.

(** How many identifiers [add_quiz] draws for the questions of an input
    and their options; the quiz takes one more. *)
Fixpoint ids_needed (questions : list QuizQuestionDict.t) : nat :=
  match questions with
  | [] => 0
  | q :: questions' => S (length (QuizQuestionDict.answers q)) + ids_needed questions'
  end.

(** The store only grew from [w] to [w']: the quizzes of [w] are an
    initial segment of those of [w'], and so are its flash cards, up to
    their [is_flipped] flags. *)
Definition grows (w w' : World) : Prop :=
  quizzes (userdata w) `prefix_of` quizzes (userdata w') /\
  (set_is_flipped false <$> flash_cards (userdata w))
    `prefix_of` (set_is_flipped false <$> flash_cards (userdata w')).

(** What holds of every tuple [check_quiz_answers] returns: [is_correct]
    is the selected option's flag, or [None] without one, and a correct
    answer is an option of the question that is flagged correct. *)
Definition graded (r : QuizResult) : Prop :=
  res_is_correct r = QuizAnswer.is_correct <$> res_selected_answer r /\
  forall c, res_correct_answer r = Some c ->
            c ∈ QuizQuestion.answers (res_question r) /\ QuizAnswer.is_correct c = true.

(** The transport and the speech sink never raise. *)
Definition calls_return `{Platform} : Prop :=
  (forall log call, exists reply, perform_rpc_outcome log call = inr reply) /\
  (forall said text, say_outcome said text = None).

(** A result tuple as [check_quiz_answers] builds it from a question. *)
Definition grade_question (d : list (string * pyval)) (question : QuizQuestion.t) : QuizResult :=
  let user_answer_id := dict_get d (QuizQuestion.id question) PyNone in
  let sc := scan_answers user_answer_id (QuizQuestion.answers question) in
  {| res_question := question;
     res_selected_answer := fst sc;
     res_correct_answer := snd sc;
     res_is_correct := QuizAnswer.is_correct <$> fst sc |}.

(** The same question with the flags the other way round. *)
Definition kerning_quiz_swapped : list QuizQuestionDict.t :=
  [ QuizQuestionDict.mk "What is kerning?"
      [ QuizAnswerDict.mk "A typeface" true;
        QuizAnswerDict.mk "The space between letter pairs" false ] ].

(** What [add_quiz kerning_quiz] stores in a new world. *)
Definition typeface_option : QuizAnswer.t :=
  QuizAnswer.mk "uuid-0" "A typeface" false.

Definition spacing_option : QuizAnswer.t :=
  QuizAnswer.mk "uuid-1" "The space between letter pairs" true.

Definition kerning_question : QuizQuestion.t :=
  QuizQuestion.mk "uuid-2" "What is kerning?" [typeface_option; spacing_option].

(** The tuple for the kerning question answered with the typeface option. *)
Definition kerning_answered_wrong : QuizResult :=
  {| res_question := kerning_question;
     res_selected_answer := Some typeface_option;
     res_correct_answer := Some spacing_option;
     res_is_correct := Some false |}.

(** Worlds after one creation in the classroom. *)
Definition with_kerning_quiz : World :=
  fst (add_quiz (P := reliable) kerning_quiz in_classroom).

Definition with_flawed_quiz : World :=
  fst (add_quiz (P := reliable) no_correct_option in_classroom).

Definition with_empty_quiz : World :=
  fst (add_quiz (P := reliable) [] in_classroom).

Definition with_one_card : World :=
  fst (add_flash_card (P := reliable) "What is tracking?" "Uniform letter spacing" in_classroom).

(** The submissions as the peer sends them. *)
Definition right_submission : string :=
  demo_dumps (submission "uuid-3" [("uuid-2", PyStr "uuid-1")]).

Definition wrong_submission : string :=
  demo_dumps (submission "uuid-3" [("uuid-2", PyStr "uuid-0")]).

Definition flawed_submission : string :=
  demo_dumps (submission "uuid-2" [("uuid-1", PyStr "uuid-0")]).

Definition empty_quiz_submission : string :=
  demo_dumps (submission "uuid-0" []).

(** ** The rest of the agent *)

Section Agent.
Context {P : Platform}.

(** [UserData.reset] keeps flash cards and quizzes: its body is empty. *)
Definition reset : M unit := ret tt.

(** The dict sent for a flip. *)
Definition flip_payload (card : FlashCard.t) : pyval :=
  PyDict [("action", PyStr "flip"); ("id", PyStr (FlashCard.id card))].

End Agent.

Module AvatarAgent.
Section Tools.
Context {P : Platform}.

(** The tool [AvatarAgent.flip_flash_card]; the method of [UserData] of
    the same name does the flipping. *)
Definition flip_flash_card (card_id : string) : M string :=
  card <- flip_flash_card (PyStr card_id) ;;
  match card with
  | None => ret ("Flash card with ID " +:+ card_id +:+ " not found.")
  | Some card =>
  w <- get_world ;;
  match ctx (userdata w) with
  | None => ret "Flipped the flash card, but couldn't access the room to send it."
  | Some c =>
  match room c with
  | None => ret "Flipped the flash card, but couldn't access the room to send it."
  | Some room =>
      let participants := remote_participants room in
      match participants with
      | [] => ret "Flipped the flash card, but no participants found to send it to."
      | _ :: _ =>
          match first_participant participants with
          | None => ret "Flipped the flash card, but couldn't get the first participant."
          | Some participant =>
              let json_payload := json_dumps (flip_payload card) in
              perform_rpc (identity participant) "client.flashcard" json_payload ;;
              ret ("I've flipped the flash card to show the "
                   +:+ (if FlashCard.is_flipped card then "answer" else "question"))
          end
      end
  end
  end
  end.

End Tools.
End AvatarAgent.

Section Inbound.
Context {P : Platform}.

(** The inbound handler [handle_flip_flash_card].  Its branches on the
    id and on the card found differ in what they log only; it returns
    [None] unless it raised. *)
Definition flip_flash_card_body (payload_str : string) : M (option string) :=
  payload_data <- lift (json_loads payload_str) ;;
  card_id <- lift (py_get payload_data "id" PyNone) ;;
  (if py_truthy card_id then
     card <- flip_flash_card card_id ;;
     match card with
     | Some _ => ret tt
     | None => ret tt
     end
   else ret tt) ;;
  ret None.

Definition handle_flip_flash_card (payload_str : string) : M (option string) :=
  try_except (flip_flash_card_body payload_str)
             (fun e => ret (Some ("error: " +:+ str_exn e))).

End Inbound.

(** ** A session *)

(** What can happen in a session: the dialogue calls a tool, or the peer
    calls a handler.  A handler sees the room as it is at the time. *)
Inductive Action : Type :=
| CallCreateFlashCard (question answer : string)
| CallFlipFlashCard (card_id : string)
| CallCreateQuiz (questions : list QuizQuestionDict.t)
| PeerFlipFlashCard (payload_str : string)
| PeerSubmitQuiz (rm : Room) (payload_str : string).

(** The world an action leaves behind, whatever it returns or raises. *)
Definition run_action `{Platform} (a : Action) (w : World) : World :=
  match a with
  | CallCreateFlashCard question answer => fst (create_flash_card question answer w)
  | CallFlipFlashCard card_id => fst (AvatarAgent.flip_flash_card card_id w)
  | CallCreateQuiz questions => fst (create_quiz questions w)
  | PeerFlipFlashCard payload_str => fst (handle_flip_flash_card payload_str w)
  | PeerSubmitQuiz rm payload_str => fst (handle_submit_quiz rm payload_str w)
  end.

Definition run_session `{Platform} (actions : list Action) (w : World) : World :=
  fold_left (fun w a => run_action a w) actions w.

(** ** More vocabulary *)

(** From [w] to [w'] the store only grew, the job context stayed, no
    identifier was handed back, and nothing sent or said was taken
    back. *)
Definition extends (w w' : World) : Prop :=
  grows w w' /\
  ctx (userdata w') = ctx (userdata w) /\
  uuid_drawn w <= uuid_drawn w' /\
  rpc_log w `prefix_of` rpc_log w' /\
  spoken w `prefix_of` spoken w'.

(** Every identifier in the store was drawn, in the order of the store:
    the ids of the flash cards, and those of the quizzes with their
    questions and options, each run along the draws of the session. *)
Definition ids_drawn `{Platform} (w : World) : Prop :=
  (FlashCard.id <$> flash_cards (userdata w))
    `sublist_of` (uuid4 <$> seq 0 (uuid_drawn w)) /\
  concat (quiz_ids <$> quizzes (userdata w))
    `sublist_of` (uuid4 <$> seq 0 (uuid_drawn w)).

(** A computation keeps an invariant of the world, returning or raising. *)
Definition keeps {A} (I : World -> Prop) (m : M A) : Prop :=
  forall w, I w -> I (fst (m w)).

(** The flash card stored for a tuple graded incorrect, under the
    identifier drawn as number [k]. *)
Definition remedial_card `{Platform} (k : nat) (r : QuizResult) (c : QuizAnswer.t) : FlashCard.t :=
  FlashCard.mk (uuid4 k) (QuizQuestion.text (res_question r)) (QuizAnswer.text c) false.

(** An invariant that each effect of the program keeps: storing a card,
    flipping one, storing a quiz, calling the peer, speaking. *)
Record effect_invariant `{Platform} (I : World -> Prop) : Prop := {
  inv_add_flash_card : forall question answer, keeps I (add_flash_card question answer);
  inv_flip_flash_card : forall card_id, keeps I (flip_flash_card card_id);
  inv_add_quiz : forall questions, keeps I (add_quiz questions);
  inv_perform_rpc : forall dest meth body, keeps I (perform_rpc dest meth body);
  inv_say : forall text, keeps I (say text)
}.

(** A world after a call to the peer was made. *)
Definition with_call (call : RpcCall) (w : World) : World :=
  {| userdata := userdata w; uuid_drawn := uuid_drawn w;
     rpc_log := rpc_log w ++ [call]; spoken := spoken w |}.

(** The call that shows a card to a peer, the card being the last of
    [cards]. *)
Definition show_card_call `{Platform} (peer : RemoteParticipant) (card : FlashCard.t)
    (cards : list FlashCard.t) : RpcCall :=
  {| destination_identity := identity peer;
     method := "client.flashcard";
     payload := json_dumps (flash_card_payload card cards) |}.

(** The calls that show the cards [new] to a peer as they are appended
    one by one to [stored]. *)
Fixpoint notifications `{Platform} (peer : RemoteParticipant)
    (stored new : list FlashCard.t) : list RpcCall :=
  match new with
  | [] => []
  | card :: rest =>
      show_card_call peer card (stored ++ [card])
      :: notifications peer (stored ++ [card]) rest
  end.

(** A card made for a tuple graded incorrect. *)
Definition card_for (r : QuizResult) (card : FlashCard.t) : Prop :=
  FlashCard.question card = QuizQuestion.text (res_question r) /\
  (exists c, res_correct_answer r = Some c /\ FlashCard.answer card = QuizAnswer.text c) /\
  FlashCard.is_flipped card = false.

(** A world after a text was said. *)
Definition with_said (text : string) (w : World) : World :=
  {| userdata := userdata w; uuid_drawn := uuid_drawn w;
     rpc_log := rpc_log w; spoken := spoken w ++ [text] |}.

(** A world after the cards [new] were made one by one, each under a new
    identifier, and shown to the first participant of the room if there
    is one. *)
Definition with_remedial_cards `{Platform} (rm : Room) (new : list FlashCard.t)
    (w : World) : World :=
  {| userdata := set_flash_cards (flash_cards (userdata w) ++ new) (userdata w);
     uuid_drawn := length new + uuid_drawn w;
     rpc_log := rpc_log w ++
                match first_participant (remote_participants rm) with
                | Some peer => notifications peer (flash_cards (userdata w)) new
                | None => []
                end;
     spoken := spoken w |}.

(** The line that opens what the handler says. *)
Definition result_summary (results : list QuizResult) : string :=
  "You got " +:+ pretty (length (filter (fun r => result_truthy r = true) results))
  +:+ " out of " +:+ pretty (length results) +:+ " questions correct.".


(** A platform whose decoder knows the renderings of the values given. *)
Definition platform_knowing (known : list pyval)
    (rpc : list RpcCall -> RpcCall -> exn + string)
    (speech : list string -> string -> option exn) : Platform :=
  {| uuid4 := demo_uuid;
     json_loads := fun s =>
       match find (fun v => String.eqb (demo_dumps v) s) known with
       | Some v => inr v
       | None => inl (JSONDecodeError "Expecting value: line 1 column 1 (char 0)")
       end;
     json_dumps := demo_dumps;
     perform_rpc_outcome := rpc;
     say_outcome := speech |}.

(** The payload a peer sends to flip a card. *)
Definition flip_request (card_id : string) : pyval := PyDict [("id", PyStr card_id)].

(** A platform that also knows a flip request and a submission without
    answers. *)
Definition tutor : Platform :=
  platform_knowing [flip_request "uuid-0"; submission "uuid-3" []]
                   (fun _ _ => inr "") (fun _ _ => None).

(** A short session in the classroom: a card, a quiz, a wrong answer to
    it, and the peer flipping the first card. *)
Definition lesson : list Action :=
  [ CallCreateFlashCard "What is tracking?" "Uniform letter spacing";
    CallCreateQuiz kerning_quiz;
    PeerSubmitQuiz classroom (demo_dumps (submission "uuid-4" [("uuid-3", PyStr "uuid-1")]));
    PeerFlipFlashCard (demo_dumps (flip_request "uuid-0")) ].

Definition teacher : Platform :=
  platform_knowing [flip_request "uuid-0";
                    submission "uuid-4" [("uuid-3", PyStr "uuid-1")]]
                   (fun _ _ => inr "") (fun _ _ => None).

Definition after_lesson : World :=
  run_session (H := teacher) lesson in_classroom.

(** * Properties *)

(** ** Comparing and looking up *)

Lemma py_str_eq_true (s : string) (v : pyval) :
  py_str_eq s v = true <-> PyStr s = v.
Proof.
  destruct v; simpl; try (split; [discriminate | intros [=]]).
  rewrite String.eqb_eq. split; [intros -> | intros [=]]; congruence.
Qed.

Lemma find_flash_card_None (v : pyval) (ud : UserData) :
  find_flash_card v ud = None <->
  forall card, card ∈ flash_cards ud -> PyStr (FlashCard.id card) <> v.
Proof.
  unfold find_flash_card. rewrite list_find_None, Forall_forall.
  split; intros H card Hin; specialize (H card Hin);
    rewrite py_str_eq_true in *; exact H.
Qed.

Lemma find_flash_card_Some (v : pyval) (ud : UserData) i card :
  find_flash_card v ud = Some (i, card) ->
  flash_cards ud !! i = Some card /\ PyStr (FlashCard.id card) = v.
Proof.
  unfold find_flash_card. intros H. apply list_find_Some in H as (Hi & Hp & _).
  split; [exact Hi | by apply py_str_eq_true].
Qed.

Lemma find_quiz_None (v : pyval) (ud : UserData) :
  find_quiz v ud = None <->
  forall quiz, quiz ∈ quizzes ud -> PyStr (Quiz.id quiz) <> v.
Proof.
  unfold find_quiz. rewrite fmap_None, list_find_None, Forall_forall.
  split; intros H quiz Hin; specialize (H quiz Hin);
    rewrite py_str_eq_true in *; exact H.
Qed.

Lemma find_quiz_Some (v : pyval) (ud : UserData) quiz :
  find_quiz v ud = Some quiz ->
  quiz ∈ quizzes ud /\ PyStr (Quiz.id quiz) = v.
Proof.
  unfold find_quiz. intros H. apply fmap_Some in H as ([i q] & H & ->).
  apply list_find_Some in H as (Hi & Hp & _). simpl. split.
  - apply list_elem_of_lookup. by exists i.
  - by apply py_str_eq_true.
Qed.

(** ** Sequencing *)

Lemma bind_inr {A B} (m : M A) (k : A -> M B) (w w' : World) (a : A) :
  m w = (w', inr a) -> bind m k w = k a w'.
Proof. unfold bind. by intros ->. Qed.

Lemma bind_inl {A B} (m : M A) (k : A -> M B) (w w' : World) (e : exn) :
  m w = (w', inl e) -> bind m k w = (w', inl e).
Proof. unfold bind. by intros ->. Qed.

Lemma bind_returns {A B} (m : M A) (k : A -> M B) (w w'' : World) (b : B) :
  bind m k w = (w'', inr b) ->
  exists w' a, m w = (w', inr a) /\ k a w' = (w'', inr b).
Proof. unfold bind. destruct (m w) as [w' [e|a]]; [done|]. eauto. Qed.

(** ** Loops *)

Lemma for_each_ret {A B} (body : A -> M B) (f : A -> B) (l : list A) :
  (forall x w, body x w = (w, inr (f x))) ->
  forall w, for_each body l w = (w, inr (f <$> l)).
Proof.
  intros Hbody. induction l as [|x l IH]; intros w; simpl; [done|].
  unfold bind. by rewrite Hbody, IH.
Qed.

Lemma for_each_fst {A B} (body : A -> M B) (l : list A) :
  (forall x w, fst (body x w) = w) ->
  forall w, fst (for_each body l w) = w.
Proof.
  intros Hbody. induction l as [|x l IH]; intros w; simpl; [done|].
  unfold bind. specialize (Hbody x w).
  destruct (body x w) as [w1 [e|y]]; simpl in *; subst; [done|].
  specialize (IH w). by destruct (for_each body l w) as [w2 [e|ys]].
Qed.

(** Two loops in step: if each turn of the second does to the image of
    an element what the first does to the element, so do the loops. *)
Lemma for_each_in_step {A A' B B'} (body : A -> M B) (body' : A' -> M B')
    (fa : A -> A') (fb : B -> B') :
  (forall x w w' y, body x w = (w', inr y) -> body' (fa x) w = (w', inr (fb y))) ->
  forall l w w' ys,
    for_each body l w = (w', inr ys) ->
    for_each body' (fa <$> l) w = (w', inr (fb <$> ys)).
Proof.
  intros Hstep. induction l as [|x l IH]; intros w w' ys; cbn [for_each fmap list_fmap].
  - by intros [= <- <-].
  - intros (w1 & y & Hy & Hrest)%bind_returns.
    apply bind_returns in Hrest as (w2 & ys' & Hys & [= <- <-]).
    rewrite (bind_inr _ _ _ _ _ (Hstep _ _ _ _ Hy)).
    by rewrite (bind_inr _ _ _ _ _ (IH _ _ _ Hys)).
Qed.

Lemma for_each_Forall {A B} (body : A -> M B) (Q : B -> Prop) :
  (forall x w w' y, body x w = (w', inr y) -> Q y) ->
  forall l w w' ys, for_each body l w = (w', inr ys) -> Forall Q ys.
Proof.
  intros Hbody. induction l as [|x l IH]; intros w w' ys; cbn [for_each].
  - by intros [= _ <-].
  - intros (w1 & y & Hy & Hrest)%bind_returns.
    apply bind_returns in Hrest as (w2 & ys' & Hys & [= _ <-]).
    constructor; eauto.
Qed.

Lemma for_each_app {A B} (body : A -> M B) (l1 l2 : list A) (w : World) :
  for_each body (l1 ++ l2) w =
  (xs <- for_each body l1 ;; ys <- for_each body l2 ;; ret (xs ++ ys)) w.
Proof.
  revert w. induction l1 as [|x l1 IH]; intros w; simpl.
  - unfold bind, ret. by destruct (for_each body l2 w) as [w2 [e|ys]].
  - unfold bind, ret in *. destruct (body x w) as [w1 [e|y]]; [done|].
    rewrite IH. destruct (for_each body l1 w1) as [w2 [e|xs]]; [done|].
    by destruct (for_each body l2 w2) as [w3 [e|ys]].
Qed.

Section Store.
Context {P : Platform}.

(** ** Flipping *)

Lemma set_is_flipped_twice (card : FlashCard.t) :
  set_is_flipped (negb (FlashCard.is_flipped (set_is_flipped (negb (FlashCard.is_flipped card)) card)))
                 (set_is_flipped (negb (FlashCard.is_flipped card)) card) = card.
Proof. destruct card as [i q a []]; reflexivity. Qed.

Lemma flip_flash_card_found (w : World) (v : pyval) i card :
  find_flash_card v (userdata w) = Some (i, card) ->
  let card' := set_is_flipped (negb (FlashCard.is_flipped card)) card in
  flip_flash_card v w = (with_flash_cards (<[i := card']> (flash_cards (userdata w))) w,
                         inr (Some card')).
Proof.
  intros Hfind. unfold flip_flash_card, bind, get_world. by rewrite Hfind.
Qed.

(** The card found for a value stays the card found after it was flipped. *)
Lemma find_flash_card_flipped (w : World) (v : pyval) i card b :
  find_flash_card v (userdata w) = Some (i, card) ->
  find_flash_card v (userdata (with_flash_cards
     (<[i := set_is_flipped b card]> (flash_cards (userdata w))) w))
  = Some (i, set_is_flipped b card).
Proof.
  unfold find_flash_card. simpl. intros (Hi & Hp & Hleast)%list_find_Some.
  apply list_find_Some. split_and!.
  - apply list_lookup_insert_eq. by eapply lookup_lt_Some.
  - exact Hp.
  - intros j y Hj Hlt. rewrite list_lookup_insert_ne in Hj by lia. eauto.
Qed.

(** Flipping the same card twice restores the world. *)
Lemma flip_flash_card_involution (w : World) (v : pyval) i card :
  find_flash_card v (userdata w) = Some (i, card) ->
  exists w1 shown,
    flip_flash_card v w = (w1, inr (Some shown)) /\
    FlashCard.is_flipped shown = negb (FlashCard.is_flipped card) /\
    flip_flash_card v w1 = (w, inr (Some card)).
Proof.
  intros Hfind. pose proof (find_flash_card_Some _ _ _ _ Hfind) as [Hi _].
  eexists _, _. split; [by apply flip_flash_card_found|]. split; [done|].
  erewrite flip_flash_card_found by (by apply find_flash_card_flipped).
  rewrite set_is_flipped_twice. f_equal.
  destruct w as [[c cards qs] n log said]. unfold with_flash_cards, set_flash_cards. simpl in *.
  by rewrite list_insert_insert_eq, list_insert_id.
Qed.

Lemma add_flash_card_run (w : World) (question answer : string) :
  let card := FlashCard.mk (uuid4 (uuid_drawn w)) question answer false in
  add_flash_card question answer w
  = (with_flash_cards (flash_cards (userdata w) ++ [card]) (drew 1 w), inr card).
Proof. reflexivity. Qed.

(** C4: a card just created is unflipped and, if no card stored before
    has its identifier, flipping it by its id returns it with [is_flipped]
    true and flipping it again returns it with [is_flipped] false.  And
    whenever a stored card has the id given, flipping returns a card and
    does not raise. *)
Theorem flip_flash_card_twice (w : World) (question answer : string) :
  ((forall c, c ∈ flash_cards (userdata w) -> FlashCard.id c <> uuid4 (uuid_drawn w)) ->
   exists w1 card w2 shown w3 hidden,
      add_flash_card question answer w = (w1, inr card) /\
      FlashCard.is_flipped card = false /\
      flip_flash_card (PyStr (FlashCard.id card)) w1 = (w2, inr (Some shown)) /\
      FlashCard.is_flipped shown = true /\
      flip_flash_card (PyStr (FlashCard.id card)) w2 = (w3, inr (Some hidden)) /\
      FlashCard.is_flipped hidden = false) /\
  (forall c, c ∈ flash_cards (userdata w) ->
      exists w' flipped,
        flip_flash_card (PyStr (FlashCard.id c)) w = (w', inr (Some flipped)) /\
        FlashCard.id flipped = FlashCard.id c).
Proof.
  split.
  - intros Hfresh.
    set (card := FlashCard.mk (uuid4 (uuid_drawn w)) question answer false).
    set (w1 := with_flash_cards (flash_cards (userdata w) ++ [card]) (drew 1 w)).
    assert (Hfind : find_flash_card (PyStr (FlashCard.id card)) (userdata w1)
                    = Some (length (flash_cards (userdata w)), card)).
    { unfold find_flash_card. simpl. rewrite list_find_app_r.
      - simpl. rewrite decide_True; [done|]. apply String.eqb_refl.
      - apply list_find_None, Forall_forall. intros c Hc Heq.
        apply String.eqb_eq in Heq. by apply (Hfresh c). }
    destruct (flip_flash_card_involution _ _ _ _ Hfind) as (w2 & shown & H1 & Hs & H2).
    exists w1, card, w2, shown, w1, card. by rewrite add_flash_card_run.
  - intros c Hin.
    destruct (find_flash_card (PyStr (FlashCard.id c)) (userdata w)) as [[i c0]|] eqn:Hfind.
    + pose proof (find_flash_card_Some _ _ _ _ Hfind) as [_ [= Hid]].
      eexists _, _. split; [by apply flip_flash_card_found|done].
    + rewrite find_flash_card_None in Hfind. by destruct (Hfind c Hin).
Qed.

(** C5: flipping with a value that is the id of no stored card returns
    [None] without raising and leaves the world as it was, the flash-card
    sequence included. *)
Theorem flip_flash_card_unknown (w : World) (card_id : pyval) :
  (forall card, card ∈ flash_cards (userdata w) -> PyStr (FlashCard.id card) <> card_id) ->
  flip_flash_card card_id w = (w, inr None).
Proof.
  intros Hno. apply find_flash_card_None in Hno.
  unfold flip_flash_card, bind, get_world. by rewrite Hno.
Qed.

(** ** Creating a quiz *)

Lemma drew_drew (a b : nat) (w : World) : drew a (drew b w) = drew (a + b) w.
Proof. unfold drew. simpl. f_equal. lia. Qed.

Lemma drew_0 (w : World) : drew 0 w = w.
Proof. by destruct w. Qed.

(** The inner loop: one stored option per input option, each under the
    next identifier drawn. *)
Lemma add_quiz_answers (answers : list QuizAnswerDict.t) (w : World) :
  exists stored,
    for_each new_answer answers w = (drew (length answers) w, inr stored) /\
    Forall2 answer_matches answers stored /\
    QuizAnswer.id <$> stored = uuid4 <$> seq (uuid_drawn w) (length answers).
Proof.
  revert w. induction answers as [|a answers IH]; intros w.
  - exists []. simpl. unfold ret. by rewrite drew_0.
  - destruct (IH (drew 1 w)) as (stored & Hrun & Hmatch & Hids).
    exists (QuizAnswer.mk (uuid4 (uuid_drawn w)) (QuizAnswerDict.text a)
                          (QuizAnswerDict.is_correct a) :: stored).
    split_and!.
    + cbn [for_each]. unfold bind at 1. unfold new_answer at 1, bind at 1.
      cbn [uuid_str ret].
      change {| userdata := userdata w; uuid_drawn := S (uuid_drawn w);
                rpc_log := rpc_log w; spoken := spoken w |} with (drew 1 w).
      unfold bind at 1. rewrite Hrun. unfold ret. rewrite drew_drew.
      do 2 f_equal. simpl. lia.
    + by constructor.
    + cbn [length seq fmap list_fmap]. f_equal. exact Hids.
Qed.

(** The outer loop. *)
Lemma add_quiz_questions (questions : list QuizQuestionDict.t) (w : World) :
  exists stored,
    for_each new_question questions w = (drew (ids_needed questions) w, inr stored) /\
    Forall2 question_matches questions stored /\
    concat (question_ids <$> stored) = uuid4 <$> seq (uuid_drawn w) (ids_needed questions).
Proof.
  revert w. induction questions as [|q questions IH]; intros w.
  - exists []. simpl. unfold ret. by rewrite drew_0.
  - destruct (add_quiz_answers (QuizQuestionDict.answers q) w)
      as (answers & Hans & Hmatch & Hids).
    set (k := length (QuizQuestionDict.answers q)) in *.
    destruct (IH (drew (S k) w)) as (stored & Hrun & Hmatches & Hrest).
    exists (QuizQuestion.mk (uuid4 (k + uuid_drawn w)) (QuizQuestionDict.text q) answers
            :: stored).
    split_and!.
    + cbn [for_each]. unfold bind at 1. unfold new_question at 1, bind at 1. rewrite Hans.
      unfold bind at 1. cbn [uuid_str ret].
      change {| userdata := userdata (drew k w); uuid_drawn := S (uuid_drawn (drew k w));
                rpc_log := rpc_log (drew k w); spoken := spoken (drew k w) |}
        with (drew (S k) w).
      unfold bind at 1. rewrite Hrun. unfold ret. rewrite drew_drew.
      do 2 f_equal. cbn [ids_needed]. subst k. lia.
    + constructor; [by split|done].
    + cbn [ids_needed fmap list_fmap concat]. fold k.
      replace (S k + ids_needed questions) with (k + (1 + ids_needed questions)) by lia.
      rewrite !seq_app, !fmap_app. unfold question_ids at 1.
      cbn [QuizQuestion.answers QuizQuestion.id].
      rewrite Hids, Hrest.
      cbn [uuid_drawn drew seq fmap list_fmap].
      rewrite <- app_assoc. do 3 f_equal; [f_equal; lia|]. f_equal. lia.
Qed.

Lemma add_quiz_run (questions : list QuizQuestionDict.t) (w : World) :
  exists quiz,
    add_quiz questions w
    = (with_quizzes (quizzes (userdata w) ++ [quiz]) (drew (S (ids_needed questions)) w),
       inr quiz) /\
    Forall2 question_matches questions (Quiz.questions quiz) /\
    quiz_ids quiz = uuid4 <$> seq (uuid_drawn w) (S (ids_needed questions)).
Proof.
  destruct (add_quiz_questions questions w) as (stored & Hrun & Hmatch & Hids).
  exists (Quiz.mk (uuid4 (ids_needed questions + uuid_drawn w)) stored). split_and!.
  - unfold add_quiz. unfold bind at 1. rewrite Hrun. reflexivity.
  - exact Hmatch.
  - unfold quiz_ids. cbn [Quiz.questions Quiz.id]. rewrite Hids.
    replace (S (ids_needed questions)) with (ids_needed questions + 1) by lia.
    rewrite seq_app, fmap_app. simpl. do 3 f_equal. lia.
Qed.

(** C7: for every input, [add_quiz] returns a quiz and appends it to the
    stored quizzes; its questions are the input questions in order with
    the same text, their options the input options in order with the same
    text and flag, whatever the flags are; and every identifier in it is
    the result of its own new draw, so that they are pairwise distinct and
    differ from all identifiers drawn before whenever the draws are. *)
Theorem add_quiz_spec (questions : list QuizQuestionDict.t) (w : World) :
  exists quiz,
    add_quiz questions w
    = (with_quizzes (quizzes (userdata w) ++ [quiz]) (drew (S (ids_needed questions)) w),
       inr quiz) /\
    Forall2 question_matches questions (Quiz.questions quiz) /\
    quiz_ids quiz = uuid4 <$> seq (uuid_drawn w) (S (ids_needed questions)) /\
    (NoDup (uuid4 <$> seq 0 (uuid_drawn w + S (ids_needed questions))) ->
     NoDup (quiz_ids quiz) /\
     forall k, k < uuid_drawn w -> uuid4 k ∉ quiz_ids quiz).
Proof.
  destruct (add_quiz_run questions w) as (quiz & Hrun & Hmatch & Hids).
  exists quiz. split_and!; [done..|].
  rewrite seq_app, fmap_app, Nat.add_0_l, <- Hids. intros (Hold & Hdisj & Hnew)%NoDup_app.
  split; [done|]. intros k Hk. apply Hdisj.
  apply list_elem_of_fmap. exists k. split; [done|]. apply elem_of_seq. lia.
Qed.

(** ** Grading reads only *)

Lemma check_quiz_answers_fst (quiz_id user_answers : pyval) (w : World) :
  fst (check_quiz_answers quiz_id user_answers w) = w.
Proof.
  unfold check_quiz_answers, bind at 1. cbn [get_quiz bind get_world ret].
  destruct (find_quiz quiz_id (userdata w)) as [quiz|]; [|done].
  apply for_each_fst. intros question w0. unfold bind, lift.
  destruct (py_get user_answers (QuizQuestion.id question) PyNone) as [e|v]; [done|].
  by destruct (scan_answers v (QuizQuestion.answers question)).
Qed.

(** ** The store only grows *)

Lemma grows_refl (w : World) : grows w w.
Proof. by split. Qed.

(** C6: after each of the six record-store operations, the quizzes
    stored before are an initial segment of the quizzes stored after, and
    the flash cards stored before are an initial segment of those stored
    after up to their [is_flipped] flags: nothing is removed, and nothing
    but that flag changes in a stored record. *)
Theorem record_store_only_grows (op : StoreOp) (w : World) :
  grows w (run_op op w).
Proof.
  destruct op as [question answer|card_id|card_id|questions|quiz_id|quiz_id user_answers];
    cbn [run_op].
  - rewrite add_flash_card_run. split; simpl; [done|].
    rewrite fmap_app. by apply prefix_app_r.
  - apply grows_refl.
  - destruct (find_flash_card card_id (userdata w)) as [[i card]|] eqn:Hfind.
    + rewrite (flip_flash_card_found _ _ _ _ Hfind).
      apply find_flash_card_Some in Hfind as [Hi _].
      split; simpl; [done|]. rewrite list_fmap_insert.
      rewrite list_insert_id; [done|]. by rewrite list_lookup_fmap, Hi.
    + unfold flip_flash_card, bind, get_world. rewrite Hfind. apply grows_refl.
  - destruct (add_quiz_run questions w) as (quiz & -> & _).
    split; simpl; [by apply prefix_app_r|done].
  - apply grows_refl.
  - rewrite check_quiz_answers_fst. apply grows_refl.
Qed.

(** ** Grading *)

(** Membership in a list extended at its end. *)
Ltac snoc_mem :=
  rewrite elem_of_app, list_elem_of_singleton; auto.

Lemma scan_answers_snoc (v : pyval) (answers : list QuizAnswer.t) (a : QuizAnswer.t) :
  scan_answers v (answers ++ [a])
  = (if py_str_eq (QuizAnswer.id a) v then Some a else fst (scan_answers v answers),
     if QuizAnswer.is_correct a then Some a else snd (scan_answers v answers)).
Proof.
  unfold scan_answers. rewrite fold_left_app. simpl.
  by destruct (fold_left _ answers (None, None)).
Qed.

(** What the scan keeps: the last option with the chosen id, and the last
    option flagged correct. *)
Lemma scan_answers_last (v : pyval) (answers : list QuizAnswer.t) :
  scan_answers v answers
  = (last (filter (fun a => py_str_eq (QuizAnswer.id a) v = true) answers),
     last (filter (fun a => QuizAnswer.is_correct a = true) answers)).
Proof.
  induction answers as [|a answers IH] using rev_ind; [done|].
  rewrite scan_answers_snoc, IH, !filter_app. cbn [fst snd].
  rewrite !filter_cons, !filter_nil. f_equal.
  - destruct (py_str_eq (QuizAnswer.id a) v).
    + rewrite decide_True by done. by rewrite last_snoc.
    + rewrite decide_False by done. by rewrite app_nil_r.
  - destruct (QuizAnswer.is_correct a).
    + rewrite decide_True by done. by rewrite last_snoc.
    + rewrite decide_False by done. by rewrite app_nil_r.
Qed.

(** The selected answer is an option of the question with the chosen id. *)
Lemma scan_answers_selected (v : pyval) (answers : list QuizAnswer.t) (a : QuizAnswer.t) :
  fst (scan_answers v answers) = Some a ->
  a ∈ answers /\ PyStr (QuizAnswer.id a) = v.
Proof.
  induction answers as [|x answers IH] using rev_ind; [done|].
  rewrite scan_answers_snoc. simpl.
  destruct (py_str_eq (QuizAnswer.id x) v) eqn:Hx.
  - intros [= <-]. split; [snoc_mem|by apply py_str_eq_true].
  - intros [Hin Hv]%IH. split; [snoc_mem|done].
Qed.

(** The correct answer is an option of the question flagged correct. *)
Lemma scan_answers_correct (v : pyval) (answers : list QuizAnswer.t) (a : QuizAnswer.t) :
  snd (scan_answers v answers) = Some a ->
  a ∈ answers /\ QuizAnswer.is_correct a = true.
Proof.
  induction answers as [|x answers IH] using rev_ind; [done|].
  rewrite scan_answers_snoc. simpl.
  destruct (QuizAnswer.is_correct x) eqn:Hx.
  - intros [= <-]. split; [snoc_mem|done].
  - intros [Hin Hv]%IH. split; [snoc_mem|done].
Qed.

(** Where the options' ids are pairwise distinct, the option with the
    chosen id is the one selected. *)
Lemma scan_answers_selects (v : pyval) (answers : list QuizAnswer.t) (a : QuizAnswer.t) :
  NoDup (QuizAnswer.id <$> answers) ->
  a ∈ answers -> PyStr (QuizAnswer.id a) = v ->
  fst (scan_answers v answers) = Some a.
Proof.
  induction answers as [|x answers IH] using rev_ind; [by intros _ ?%elem_of_nil|].
  rewrite fmap_app, scan_answers_snoc. simpl.
  intros (Hnd & Hdisj & _)%NoDup_app Hin Hv.
  destruct (py_str_eq (QuizAnswer.id x) v) eqn:Hx.
  - apply py_str_eq_true in Hx. apply elem_of_app in Hin as [Hin|Hin].
    + exfalso. apply (Hdisj (QuizAnswer.id a)).
      * apply list_elem_of_fmap. by exists a.
      * assert (QuizAnswer.id a = QuizAnswer.id x) as -> by congruence.
        apply list_elem_of_singleton. reflexivity.
    + apply list_elem_of_singleton in Hin. by subst.
  - apply elem_of_app in Hin as [Hin|Hin]; [by apply IH|].
    apply list_elem_of_singleton in Hin. subst x.
    apply py_str_eq_true in Hv. congruence.
Qed.

(** With a dict of answers, grading returns the tuples of
    [grade_question] and does not raise. *)
Lemma check_quiz_answers_run (quiz_id : pyval) (d : list (string * pyval)) (w : World) :
  check_quiz_answers quiz_id (PyDict d) w
  = (w, inr match find_quiz quiz_id (userdata w) with
            | Some quiz => grade_question d <$> Quiz.questions quiz
            | None => []
            end).
Proof.
  unfold check_quiz_answers, bind at 1. cbn [get_quiz bind get_world ret].
  destruct (find_quiz quiz_id (userdata w)) as [quiz|]; [|done].
  apply for_each_ret. intros question w0. unfold bind, lift, grade_question. simpl.
  by destruct (scan_answers _ _).
Qed.

(** C1: grading with a mapping of answers returns without raising.  If no
    stored quiz has the id given, the result is empty.  Otherwise the
    result lists one tuple per question of the stored quiz found under
    that id, in the stored order.  A tuple holds its question; as
    selected answer the last option of the question whose id is the id
    that the mapping gives for the question, or nothing; as correct
    answer the last option flagged correct, or nothing; and as
    [is_correct] the selected option's flag, or nothing.  [is_correct]
    is true only if some option of the question has the chosen id and is
    flagged correct, and, the options' ids being pairwise distinct within
    the question, exactly if so. *)
Theorem check_quiz_answers_spec (quiz_id : pyval) (d : list (string * pyval)) (w : World) :
  exists results,
    check_quiz_answers quiz_id (PyDict d) w = (w, inr results) /\
    (((forall quiz, quiz ∈ quizzes (userdata w) -> PyStr (Quiz.id quiz) <> quiz_id) /\
      results = [])
     \/
     (exists quiz,
        find_quiz quiz_id (userdata w) = Some quiz /\
        quiz ∈ quizzes (userdata w) /\ PyStr (Quiz.id quiz) = quiz_id /\
        Forall2 (fun question r =>
                   let chosen := dict_get d (QuizQuestion.id question) PyNone in
                   let chosen_is_correct :=
                     exists a, a ∈ QuizQuestion.answers question /\
                               PyStr (QuizAnswer.id a) = chosen /\
                               QuizAnswer.is_correct a = true in
                   res_question r = question /\
                   res_selected_answer r
                   = last (filter (fun a => py_str_eq (QuizAnswer.id a) chosen = true)
                                  (QuizQuestion.answers question)) /\
                   res_correct_answer r
                   = last (filter (fun a => QuizAnswer.is_correct a = true)
                                  (QuizQuestion.answers question)) /\
                   res_is_correct r = QuizAnswer.is_correct <$> res_selected_answer r /\
                   (result_truthy r = true -> chosen_is_correct) /\
                   (NoDup (QuizAnswer.id <$> QuizQuestion.answers question) ->
                    (result_truthy r = true <-> chosen_is_correct)))
                (Quiz.questions quiz) results)).
Proof.
  eexists. split; [apply check_quiz_answers_run|].
  destruct (find_quiz quiz_id (userdata w)) as [quiz|] eqn:Hfind.
  - right. exists quiz. destruct (find_quiz_Some _ _ _ Hfind) as [Hin Hid].
    split_and!; [done..|].
    apply Forall2_fmap_r, Forall_Forall2_diag, Forall_forall.
    intros question Hq. unfold compose. cbv zeta. split; [done|].
    unfold grade_question at 1 2 3 4.
    cbn [res_selected_answer res_correct_answer res_is_correct].
    split; [by rewrite scan_answers_last|]. split; [by rewrite scan_answers_last|].
    split; [done|].
    unfold result_truthy, grade_question. simpl.
    set (v := dict_get d (QuizQuestion.id question) PyNone).
    destruct (fst (scan_answers v (QuizQuestion.answers question))) as [sel|] eqn:Hsel; simpl.
    + destruct (scan_answers_selected _ _ _ Hsel) as [Hin' Hv].
      assert (Hforth : QuizAnswer.is_correct sel = true ->
                       exists a, a ∈ QuizQuestion.answers question /\
                                 PyStr (QuizAnswer.id a) = v /\ QuizAnswer.is_correct a = true)
        by (intros Hc; by exists sel).
      split; [exact Hforth|]. intros Hdistinct. split; [exact Hforth|].
      intros (a & Ha & Hav & Hc).
      rewrite (scan_answers_selects v _ a Hdistinct Ha Hav) in Hsel. congruence.
    + split; [done|]. intros Hdistinct. split; [done|]. intros (a & Ha & Hav & Hc).
      rewrite (scan_answers_selects v _ a Hdistinct Ha Hav) in Hsel. congruence.
  - left. split; [by apply find_quiz_None|done].
Qed.

End Store.

Section Tools.
Context {P : Platform}.

(** ** What the peer is sent for a quiz *)

Lemma client_answers_hide (answers : list QuizAnswer.t) :
  map client_answer (hide_answer <$> answers) = map client_answer answers.
Proof.
  induction answers as [|a answers IH]; [done|].
  change (client_answer (hide_answer a) :: map client_answer (hide_answer <$> answers)
          = client_answer a :: map client_answer answers).
  by rewrite IH.
Qed.

Lemma client_questions_hide (questions : list QuizQuestion.t) :
  map client_question (hide_question <$> questions) = map client_question questions.
Proof.
  induction questions as [|q questions IH]; [done|].
  change (client_question (hide_question q)
            :: map client_question (hide_question <$> questions)
          = client_question q :: map client_question questions).
  rewrite IH. f_equal. unfold client_question, hide_question.
  cbn [QuizQuestion.id QuizQuestion.text QuizQuestion.answers].
  by rewrite client_answers_hide.
Qed.

Lemma quiz_payload_hide_flags (quiz : Quiz.t) :
  quiz_payload (hide_flags quiz) = quiz_payload quiz.
Proof.
  unfold quiz_payload, hide_flags. cbn [Quiz.id Quiz.questions].
  by rewrite client_questions_hide.
Qed.

(** Run on the blanked input, [add_quiz] stores the blanked version of
    what it stores for the input, and draws as many identifiers. *)
Lemma new_answer_blank (a : QuizAnswerDict.t) (w w' : World) (stored : QuizAnswer.t) :
  new_answer a w = (w', inr stored) ->
  new_answer (blank_answer a) w = (w', inr (hide_answer stored)).
Proof. unfold new_answer, bind, uuid_str, ret. by intros [= <- <-]. Qed.

Lemma new_question_blank (q : QuizQuestionDict.t) (w w' : World) (stored : QuizQuestion.t) :
  new_question q w = (w', inr stored) ->
  new_question (blank_flags q) w = (w', inr (hide_question stored)).
Proof.
  unfold new_question. intros (w1 & answers & Hans & Hrest)%bind_returns.
  cbn [blank_flags QuizQuestionDict.answers QuizQuestionDict.text].
  rewrite (bind_inr _ _ _ _ _ (for_each_in_step _ _ _ _ new_answer_blank _ _ _ _ Hans)).
  revert Hrest. unfold bind, uuid_str, ret. by intros [= <- <-].
Qed.

Lemma add_quiz_blank (questions : list QuizQuestionDict.t) (w w' : World) (quiz : Quiz.t) :
  add_quiz questions w = (w', inr quiz) ->
  exists w'', add_quiz (blank_flags <$> questions) w = (w'', inr (hide_flags quiz)).
Proof.
  unfold add_quiz. intros (w1 & stored & Hrun & Hrest)%bind_returns.
  rewrite (bind_inr _ _ _ _ _ (for_each_in_step _ _ _ _ new_question_blank _ _ _ _ Hrun)).
  revert Hrest. unfold bind, uuid_str, set_userdata, ret. intros [= <- <-].
  eexists. reflexivity.
Qed.

(** The dicts sent for a quiz have no key [is_correct]. *)
Lemma client_answers_no_flag (answers : list QuizAnswer.t) :
  existsb (py_has_key "is_correct") (map client_answer answers) = false.
Proof. induction answers as [|a answers IH]; [done|]. simpl. exact IH. Qed.

Lemma client_questions_no_flag (questions : list QuizQuestion.t) :
  existsb (py_has_key "is_correct") (map client_question questions) = false.
Proof.
  induction questions as [|q questions IH]; [done|].
  cbn [map existsb]. rewrite IH, orb_false_r.
  unfold client_question. cbn [py_has_key existsb fst snd String.eqb Ascii.eqb Bool.eqb orb].
  by rewrite client_answers_no_flag.
Qed.

Lemma quiz_payload_no_flag (quiz : Quiz.t) :
  py_has_key "is_correct" (quiz_payload quiz) = false.
Proof.
  unfold quiz_payload. cbn [py_has_key existsb fst snd String.eqb Ascii.eqb Bool.eqb orb].
  by rewrite client_questions_no_flag.
Qed.

(** C8: two inputs to [create_quiz] that differ only in their flags get,
    from the same world, the same reply and the same calls to the peer:
    at most one, under the method [client.quiz], whose payload is the same
    string for both, the rendering of a dict without any key
    [is_correct]. *)
Theorem create_quiz_hides_flags (w : World) (qs1 qs2 : list QuizQuestionDict.t) :
  blank_flags <$> qs1 = blank_flags <$> qs2 ->
  snd (create_quiz qs1 w) = snd (create_quiz qs2 w) /\
  exists sent,
    rpc_log (fst (create_quiz qs1 w)) = rpc_log w ++ sent /\
    rpc_log (fst (create_quiz qs2 w)) = rpc_log w ++ sent /\
    Forall (fun call =>
              method call = "client.quiz" /\
              exists v, payload call = json_dumps v /\ py_has_key "is_correct" v = false)
           sent.
Proof.
  intros Hblank.
  destruct (add_quiz_run qs1 w) as (quiz1 & Hrun1 & _).
  destruct (add_quiz_run qs2 w) as (quiz2 & Hrun2 & _).
  destruct (add_quiz_blank _ _ _ _ Hrun1) as (w1 & Hb1).
  destruct (add_quiz_blank _ _ _ _ Hrun2) as (w2 & Hb2).
  assert (Hhide : hide_flags quiz1 = hide_flags quiz2) by congruence.
  assert (Hpayload : quiz_payload quiz1 = quiz_payload quiz2).
  { by rewrite <- (quiz_payload_hide_flags quiz1), Hhide, quiz_payload_hide_flags. }
  assert (Hlen : length qs1 = length qs2).
  { by rewrite <- (length_fmap blank_flags qs1), Hblank, length_fmap. }
  unfold create_quiz.
  rewrite (bind_inr _ _ _ _ _ Hrun1), (bind_inr _ _ _ _ _ Hrun2).
  unfold bind, get_world, perform_rpc, ret.
  cbn [userdata with_quizzes set_quizzes ctx drew rpc_log]. rewrite Hpayload, Hlen.
  destruct (ctx (userdata w)) as [c|]; [|by split; [|exists []; rewrite !app_nil_r]].
  destruct (room c) as [rm|]; [|by split; [|exists []; rewrite !app_nil_r]].
  destruct (remote_participants rm) as [|[name peer] peers];
    [by split; [|exists []; rewrite !app_nil_r]|].
  cbn [first_participant map head snd].
  destruct (perform_rpc_outcome _ _); (split; [done|]); eexists [_];
    (split; [done|]); (split; [done|]); (constructor; [|done]);
    (split; [done|]); exists (quiz_payload quiz2);
    (split; [done|apply quiz_payload_no_flag]).
Qed.

(** ** Creating a flash card with nobody to tell *)

(** C9: where there is no job context, no room or no remote participant,
    [create_flash_card] returns a status text and does not raise, calls
    [perform_rpc] not at all, and leaves the new card, unflipped and with
    the question and answer given, at the end of the stored flash cards. *)
Theorem create_flash_card_without_peer (w : World) (question answer : string) :
  no_peer (userdata w) ->
  exists w' status card,
    create_flash_card question answer w = (w', inr status) /\
    rpc_log w' = rpc_log w /\
    flash_cards (userdata w') = flash_cards (userdata w) ++ [card] /\
    FlashCard.question card = question /\
    FlashCard.answer card = answer /\
    FlashCard.is_flipped card = false /\
    (status = "Created a flash card, but couldn't access the room to send it." \/
     status = "Created a flash card, but no participants found to send it to.").
Proof.
  unfold no_peer. intros Hnone.
  unfold create_flash_card. rewrite (bind_inr _ _ _ _ _ (add_flash_card_run w question answer)).
  unfold bind, get_world. cbn [userdata with_flash_cards set_flash_cards ctx drew].
  destruct (ctx (userdata w)) as [c|]; [destruct (room c) as [rm|]|].
  - rewrite Hnone. eexists _, _, _. split; [reflexivity|]. simpl. split_and!; eauto.
  - eexists _, _, _. split; [reflexivity|]. simpl. split_and!; eauto.
  - eexists _, _, _. split; [reflexivity|]. simpl. split_and!; eauto.
Qed.

End Tools.

Section Handler.
Context {P : Platform}.

(** ** The tuples of a grading *)

Lemma check_quiz_answers_graded (quiz_id user_answers : pyval) (w w' : World) results :
  check_quiz_answers quiz_id user_answers w = (w', inr results) ->
  Forall graded results.
Proof.
  unfold check_quiz_answers. intros (w1 & quiz & _ & Hrest)%bind_returns.
  destruct quiz as [quiz|]; [|injection Hrest as _ <-; constructor].
  revert Hrest. apply for_each_Forall. clear. intros question w w' r.
  intros (w1 & v & _ & Hr)%bind_returns. revert Hr.
  destruct (scan_answers v (QuizQuestion.answers question)) as [sel cor] eqn:Hscan.
  intros [= _ <-]. split; [done|]. simpl. intros c ->.
  apply (scan_answers_correct v). by rewrite Hscan.
Qed.

Lemma check_quiz_answers_empty (quiz_id user_answers : pyval) (w : World) :
  (forall quiz, find_quiz quiz_id (userdata w) = Some quiz -> Quiz.questions quiz = []) ->
  check_quiz_answers quiz_id user_answers w = (w, inr []).
Proof.
  intros Hempty. unfold check_quiz_answers, bind at 1. cbn [get_quiz bind get_world ret].
  destruct (find_quiz quiz_id (userdata w)) as [quiz|]; [|done].
  by rewrite (Hempty quiz eq_refl).
Qed.

(** ** The feedback loop *)

(** A question answered correctly costs nothing. *)
Lemma question_feedback_right (rm : Room) (r : QuizResult) :
  graded r -> result_truthy r = true ->
  exists text, forall w, question_feedback rm r w = (w, inr text).
Proof.
  intros [Hic _] Ht. unfold question_feedback. rewrite Ht.
  unfold result_truthy in Ht. rewrite Hic in Ht.
  destruct (res_selected_answer r) as [a|]; [|done].
  eexists. intros w. reflexivity.
Qed.

Lemma for_each_feedback_right (rm : Room) (rs : list QuizResult) :
  Forall graded rs -> Forall (fun r => result_truthy r = true) rs ->
  exists texts, forall w, for_each (question_feedback rm) rs w = (w, inr texts).
Proof.
  induction rs as [|r rs IH]; intros Hg Ht.
  - exists []. done.
  - apply Forall_cons in Hg as [Hg Hgs]. apply Forall_cons in Ht as [Ht Hts].
    destruct (question_feedback_right rm r Hg Ht) as (text & Hr).
    destruct (IH Hgs Hts) as (texts & Hrs).
    exists (text :: texts). intros w. cbn [for_each].
    rewrite (bind_inr _ _ _ _ _ (Hr w)), (bind_inr _ _ _ _ _ (Hrs w)). done.
Qed.

(** A question answered wrongly that has a correct answer gets its flash
    card, whatever becomes of the call to the peer. *)
Lemma question_feedback_wrong (rm : Room) (r : QuizResult) (c : QuizAnswer.t) (w : World) :
  result_truthy r = false -> res_correct_answer r = Some c ->
  let card := FlashCard.mk (uuid4 (uuid_drawn w)) (QuizQuestion.text (res_question r))
                           (QuizAnswer.text c) false in
  exists w' res,
    question_feedback rm r w = (w', res) /\
    userdata w' = set_flash_cards (flash_cards (userdata w) ++ [card]) (userdata w) /\
    ((forall log call, exists reply, perform_rpc_outcome log call = inr reply) ->
     exists text, res = inr text).
Proof.
  intros Ht Hc card. unfold question_feedback. rewrite Ht, Hc. cbn [answer_text].
  unfold bind at 1. cbn [ret]. rewrite (bind_inr _ _ _ _ _ (add_flash_card_run w _ _)).
  destruct (first_participant (remote_participants rm)) as [peer|].
  - unfold bind, get_world, perform_rpc, ret.
    match goal with |- context [perform_rpc_outcome ?l ?k] =>
      pose proof (fun Hrel : forall log call, exists reply,
                      perform_rpc_outcome log call = inr reply => Hrel l k) as Hcall;
      destruct (perform_rpc_outcome l k) as [e|reply] end.
    + eexists _, _. split; [reflexivity|]. split; [done|].
      intros Hrel. by destruct (Hcall Hrel).
    + eexists _, _. split; [reflexivity|]. split; [done|]. eauto.
  - eexists _, _. split; [reflexivity|]. split; [done|]. eauto.
Qed.


(** ** The handler *)

(** Past decoding, the id check and a grading that is not empty, the
    handler runs the feedback loop, says a text built from the feedback,
    and returns [success]. *)
Lemma submit_quiz_body_graded (rm : Room) (w : World) (payload_str : string)
    (d : list (string * pyval)) (results : list QuizResult) :
  json_loads payload_str = inr (PyDict d) ->
  py_truthy (dict_get d "id" PyNone) = true ->
  check_quiz_answers (dict_get d "id" PyNone) (dict_get d "answers" (PyDict [])) w
  = (w, inr results) ->
  results <> [] ->
  exists response : list string -> string,
    submit_quiz_body rm payload_str w
    = (feedback_details <- for_each (question_feedback rm) results ;;
       say (response feedback_details) ;;
       ret "success") w.
Proof.
  intros Hloads Hid Hcheck Hne. unfold submit_quiz_body.
  rewrite (bind_inr _ _ w w (PyDict d)) by (unfold lift; by rewrite Hloads).
  rewrite (bind_inr _ _ w w (dict_get d "id" PyNone)) by reflexivity.
  rewrite (bind_inr _ _ w w (dict_get d "answers" (PyDict []))) by reflexivity.
  rewrite Hid. cbn [negb]. rewrite (bind_inr _ _ _ _ _ Hcheck).
  destruct results as [|r rs]; [done|]. eexists (fun feedback_details => _). reflexivity.
Qed.

Lemma say_userdata (text : string) (w : World) :
  userdata (fst (say text w)) = userdata w.
Proof. unfold say. by destruct (say_outcome (spoken w) text). Qed.

(** The feedback for a question answered wrongly that has a correct
    answer: the card is stored, then shown to the first participant. *)
Lemma question_feedback_wrong_run (rm : Room) (r : QuizResult) (c : QuizAnswer.t) (w : World) :
  result_truthy r = false -> res_correct_answer r = Some c ->
  let card := remedial_card (uuid_drawn w) r c in
  let cards := flash_cards (userdata w) ++ [card] in
  let w1 := with_flash_cards cards (drew 1 w) in
  exists text,
    question_feedback rm r w
    = match first_participant (remote_participants rm) with
      | Some peer =>
          (with_call (show_card_call peer card cards) w1,
           match perform_rpc_outcome (rpc_log w) (show_card_call peer card cards) with
           | inl e => inl e
           | inr _ => inr text
           end)
      | None => (w1, inr text)
      end.
Proof.
  intros Ht Hc card cards w1. unfold question_feedback. rewrite Ht, Hc. cbn [answer_text].
  unfold bind at 1. cbn [ret]. rewrite (bind_inr _ _ _ _ _ (add_flash_card_run w _ _)).
  eexists. destruct (first_participant (remote_participants rm)) as [peer|]; [|reflexivity].
  unfold bind, get_world, perform_rpc, ret.
  cbn [userdata with_flash_cards set_flash_cards flash_cards drew rpc_log].
  fold card. fold cards. unfold show_card_call, with_call.
  cbn [userdata with_flash_cards set_flash_cards flash_cards drew rpc_log uuid_drawn spoken].
  by destruct (perform_rpc_outcome _ _).
Qed.

(** As [submit_quiz_body_graded], with the text that is said. *)
Lemma submit_quiz_body_says (rm : Room) (w : World) (payload_str : string)
    (d : list (string * pyval)) (results : list QuizResult) :
  json_loads payload_str = inr (PyDict d) ->
  py_truthy (dict_get d "id" PyNone) = true ->
  check_quiz_answers (dict_get d "id" PyNone) (dict_get d "answers" (PyDict [])) w
  = (w, inr results) ->
  results <> [] ->
  submit_quiz_body rm payload_str w
  = (feedback_details <- for_each (question_feedback rm) results ;;
     say (result_summary results +:+ nl +:+ nl
          +:+ String.concat (nl +:+ nl) feedback_details) ;;
     ret "success") w.
Proof.
  intros Hloads Hid Hcheck Hne. unfold submit_quiz_body.
  rewrite (bind_inr _ _ w w (PyDict d)) by (unfold lift; by rewrite Hloads).
  rewrite (bind_inr _ _ w w (dict_get d "id" PyNone)) by reflexivity.
  rewrite (bind_inr _ _ w w (dict_get d "answers" (PyDict []))) by reflexivity.
  rewrite Hid. cbn [negb]. rewrite (bind_inr _ _ _ _ _ Hcheck).
  destruct results as [|r rs]; [done|]. reflexivity.
Qed.



(** C3, as the code has it: when a submission is graded with one question
    answered wrongly, all others correctly, and grading found a correct
    answer for that question, the handler leaves behind the flash cards
    stored before and one new card after them; its question is the text
    of that question and its answer the text of that correct answer, an
    option of the question that is flagged correct. *)
Theorem handle_submit_quiz_one_wrong (rm : Room) (w : World) (payload_str : string)
    (d : list (string * pyval)) (pre post : list QuizResult) (wrong : QuizResult)
    (c : QuizAnswer.t) :
  json_loads payload_str = inr (PyDict d) ->
  py_truthy (dict_get d "id" PyNone) = true ->
  check_quiz_answers (dict_get d "id" PyNone) (dict_get d "answers" (PyDict [])) w
  = (w, inr (pre ++ wrong :: post)) ->
  Forall (fun r => result_truthy r = true) (pre ++ post) ->
  result_truthy wrong = false ->
  res_correct_answer wrong = Some c ->
  exists card,
    flash_cards (userdata (fst (handle_submit_quiz rm payload_str w)))
    = flash_cards (userdata w) ++ [card] /\
    FlashCard.question card = QuizQuestion.text (res_question wrong) /\
    FlashCard.answer card = QuizAnswer.text c /\
    FlashCard.is_flipped card = false /\
    c ∈ QuizQuestion.answers (res_question wrong) /\
    QuizAnswer.is_correct c = true.
Proof.
  intros Hloads Hid Hcheck [Hpre Hpost]%Forall_app Hwrong Hc.
  pose proof (check_quiz_answers_graded _ _ _ _ _ Hcheck) as Hg.
  apply Forall_app in Hg as [Hgpre Hg]. apply Forall_cons in Hg as [Hgwrong Hgpost].
  destruct (submit_quiz_body_graded rm w _ _ _ Hloads Hid Hcheck) as (response & Hbody);
    [by destruct pre|].
  destruct (for_each_feedback_right rm pre Hgpre Hpre) as (xs & Hxs).
  destruct (for_each_feedback_right rm post Hgpost Hpost) as (ys & Hys).
  destruct (question_feedback_wrong rm wrong c w Hwrong Hc) as (w1 & res & Hr & Hud & _).
  exists (FlashCard.mk (uuid4 (uuid_drawn w)) (QuizQuestion.text (res_question wrong))
                       (QuizAnswer.text c) false).
  split; [|split_and!; [reflexivity|reflexivity|reflexivity|apply Hgwrong, Hc..]].
  assert (Hfst : forall (m : M string) w0, fst (try_except m (fun e => ret ("error: " +:+ str_exn e)) w0)
                               = fst (m w0)).
  { intros m w0. unfold try_except. by destruct (m w0) as [w' [e|s]]. }
  unfold handle_submit_quiz. rewrite Hfst, Hbody. clear Hfst Hbody.
  cut (userdata (fst ((feedback_details <- for_each (question_feedback rm) (pre ++ wrong :: post);;
                       say (response feedback_details);; ret "success") w)) = userdata w1).
  { intros ->. by rewrite Hud. }
  unfold bind at 1. rewrite for_each_app, (bind_inr _ _ _ _ _ (Hxs w)).
  cbn [for_each]. unfold bind at 1 2. rewrite Hr.
  destruct res as [e|text]; [done|].
  rewrite (bind_inr _ _ _ _ _ (Hys w1)). cbn [ret].
  unfold bind. pose proof (say_userdata (response (xs ++ text :: ys)) w1) as Hsaid.
  by destruct (say _ w1) as [w2 [e|[]]].
Qed.

(** C10: for a stored quiz without questions, grading returns the empty
    list, and the handler, given a payload with the quiz's id, replies
    [error: Quiz not found] and leaves the world as it was; it does the
    same in any world where no quiz has that id. *)
Theorem empty_quiz_reported_not_found (rm : Room) (w : World) (payload_str : string)
    (d : list (string * pyval)) (quiz : Quiz.t) :
  json_loads payload_str = inr (PyDict d) ->
  dict_get d "id" PyNone = PyStr (Quiz.id quiz) ->
  Quiz.id quiz <> "" ->
  find_quiz (PyStr (Quiz.id quiz)) (userdata w) = Some quiz ->
  Quiz.questions quiz = [] ->
  (forall user_answers,
      check_quiz_answers (PyStr (Quiz.id quiz)) user_answers w = (w, inr [])) /\
  handle_submit_quiz rm payload_str w = (w, inr "error: Quiz not found") /\
  (forall w0,
      find_quiz (PyStr (Quiz.id quiz)) (userdata w0) = None ->
      handle_submit_quiz rm payload_str w0 = (w0, inr "error: Quiz not found")).
Proof.
  intros Hloads Hid Hne Hfind Hempty.
  assert (Hreply : forall w0,
             (forall q, find_quiz (PyStr (Quiz.id quiz)) (userdata w0) = Some q ->
                        Quiz.questions q = []) ->
             handle_submit_quiz rm payload_str w0 = (w0, inr "error: Quiz not found")).
  { intros w0 Hq. unfold handle_submit_quiz, try_except, submit_quiz_body.
    rewrite (bind_inr _ _ w0 w0 (PyDict d)) by (unfold lift; by rewrite Hloads).
    rewrite (bind_inr _ _ w0 w0 (dict_get d "id" PyNone)) by reflexivity.
    rewrite (bind_inr _ _ w0 w0 (dict_get d "answers" (PyDict []))) by reflexivity.
    rewrite Hid. cbn [py_truthy].
    apply String.eqb_neq in Hne. rewrite Hne. cbn [negb].
    by rewrite (bind_inr _ _ _ _ _ (check_quiz_answers_empty _ _ _ Hq)). }
  split_and!.
  - intros user_answers. apply check_quiz_answers_empty. intros q. rewrite Hfind. by intros [= <-].
  - apply Hreply. intros q. rewrite Hfind. by intros [= <-].
  - intros w0 Hnone. apply Hreply. intros q. by rewrite Hnone.
Qed.

End Handler.

(** * The statements on the examples *)

(** A right answer: no flash card, nothing sent, the summary spoken. *)
Example right_submission_run :
  handle_submit_quiz (P := reliable) classroom right_submission with_kerning_quiz
  = ({| userdata := userdata with_kerning_quiz;
        uuid_drawn := 4;
        rpc_log := [];
        spoken := ["You got 1 out of 1 questions correct." +:+ nl +:+ nl
                   +:+ "Question: What is kerning?" +:+ nl
                   +:+ "Your answer: The space between letter pairs "
                   +:+ check_mark +:+ " Correct!"] |},
     inr "success").
Proof. vm_compute. reflexivity. Qed.

(** A wrong answer: one flash card, sent to the student as card 0. *)
Example wrong_submission_run :
  let w := fst (handle_submit_quiz (P := reliable) classroom wrong_submission
                  with_kerning_quiz) in
  flash_cards (userdata w)
  = [FlashCard.mk "uuid-4" "What is kerning?" "The space between letter pairs" false] /\
  rpc_log w
  = [{| destination_identity := "student";
        method := "client.flashcard";
        payload := demo_dumps
          (PyDict [("action", PyStr "show"); ("id", PyStr "uuid-4");
                   ("question", PyStr "What is kerning?");
                   ("answer", PyStr "The space between letter pairs");
                   ("index", PyInt 0)]) |}].
Proof. vm_compute. split; reflexivity. Qed.

(** Anything that does not decode, or decodes to something else than a
    dict, gets an error reply. *)
Example undecodable_submission_run :
  snd (handle_submit_quiz (P := reliable) classroom "{" with_kerning_quiz)
  = inr "error: Expecting value: line 1 column 1 (char 0)".
Proof. vm_compute. reflexivity. Qed.

(** Grading with something that is not a mapping raises as soon as there
    is a question to look up. *)
Example check_quiz_answers_list_run :
  snd (check_quiz_answers (PyStr "uuid-3") (PyList []) with_kerning_quiz)
  = inl (AttributeError "'list' object has no attribute 'get'").
Proof. vm_compute. reflexivity. Qed.

Lemma check_quiz_answers_spec_witness :
  exists r,
    check_quiz_answers (PyStr "uuid-3") (PyDict [("uuid-2", PyStr "uuid-1")])
      with_kerning_quiz
    = (with_kerning_quiz, inr [r]) /\
    (result_truthy r = true <->
     exists a, a ∈ QuizQuestion.answers kerning_question /\
               PyStr (QuizAnswer.id a) = PyStr "uuid-1" /\
               QuizAnswer.is_correct a = true).
Proof.
  destruct (check_quiz_answers_spec (PyStr "uuid-3") [("uuid-2", PyStr "uuid-1")]
              with_kerning_quiz)
    as (results & Hrun & [[Hnone _]|(quiz & Hfind & _ & _ & Hall)]).
  - exfalso. apply (Hnone (Quiz.mk "uuid-3" [kerning_question])); [|reflexivity].
    vm_compute. left.
  - vm_compute in Hfind. injection Hfind as <-.
    apply Forall2_cons_inv_l
      in Hall as (r & rest & (_ & _ & _ & _ & _ & Hiff) & Hrest & ->).
    apply Forall2_nil_inv_l in Hrest as ->.
    exists r. split; [exact Hrun|]. apply Hiff.
    apply (bool_decide_unpack _). vm_compute. exact I.
Defined.



(** C3 as stated fails: this submission is graded with its one question
    answered wrongly, and the handler stores no flash card, because the
    question has no option flagged correct. *)
Lemma handle_submit_quiz_no_card_without_correct_option :
  exists d r,
    json_loads (Platform := reliable) flawed_submission = inr (PyDict d) /\
    py_truthy (dict_get d "id" PyNone) = true /\
    check_quiz_answers (dict_get d "id" PyNone) (dict_get d "answers" (PyDict []))
      with_flawed_quiz
    = (with_flawed_quiz, inr [r]) /\
    result_truthy r = false /\
    res_correct_answer r = None /\
    flash_cards (userdata (fst (handle_submit_quiz (P := reliable) classroom
                                  flawed_submission with_flawed_quiz)))
    = flash_cards (userdata with_flawed_quiz).
Proof.
  eexists _, _. split; [vm_compute; reflexivity|].
  split; [vm_compute; reflexivity|]. split; [vm_compute; reflexivity|].
  split; [reflexivity|]. split; [reflexivity|]. vm_compute. reflexivity.
Qed.

Lemma handle_submit_quiz_one_wrong_witness :
  exists card,
    flash_cards (userdata (fst (handle_submit_quiz (P := reliable) classroom
                                  wrong_submission with_kerning_quiz))) = [card] /\
    FlashCard.question card = "What is kerning?" /\
    FlashCard.answer card = "The space between letter pairs".
Proof.
  destruct (handle_submit_quiz_one_wrong (P := reliable) classroom with_kerning_quiz
              wrong_submission
              [("id", PyStr "uuid-3"); ("answers", PyDict [("uuid-2", PyStr "uuid-0")])]
              [] [] kerning_answered_wrong spacing_option)
    as (card & Hcards & Hq & Ha & _).
  - vm_compute. reflexivity.
  - vm_compute. reflexivity.
  - vm_compute. reflexivity.
  - constructor.
  - reflexivity.
  - reflexivity.
  - exists card. split_and!; [exact Hcards|exact Hq|exact Ha].
Defined.

Lemma flip_flash_card_twice_witness :
  exists w1 card w2 shown w3 hidden,
    add_flash_card (P := reliable) "What is leading?" "Line spacing" with_one_card
    = (w1, inr card) /\
    FlashCard.is_flipped card = false /\
    flip_flash_card (PyStr (FlashCard.id card)) w1 = (w2, inr (Some shown)) /\
    FlashCard.is_flipped shown = true /\
    flip_flash_card (PyStr (FlashCard.id card)) w2 = (w3, inr (Some hidden)) /\
    FlashCard.is_flipped hidden = false.
Proof.
  apply (proj1 (flip_flash_card_twice (P := reliable) with_one_card
                  "What is leading?" "Line spacing")).
  intros c Hin. apply list_elem_of_singleton in Hin. subst c. vm_compute. discriminate.
Defined.

Lemma flip_flash_card_unknown_witness :
  flip_flash_card (PyStr "uuid-7") with_one_card = (with_one_card, inr None).
Proof.
  apply flip_flash_card_unknown.
  intros c Hin. apply list_elem_of_singleton in Hin. subst c. vm_compute. discriminate.
Defined.

Lemma add_quiz_spec_witness :
  exists quiz,
    snd (add_quiz (P := reliable) kerning_quiz in_classroom) = inr quiz /\
    NoDup (quiz_ids quiz).
Proof.
  destruct (add_quiz_spec (P := reliable) kerning_quiz in_classroom)
    as (quiz & Hrun & _ & _ & Hfresh).
  exists quiz. split; [by rewrite Hrun|]. apply Hfresh.
  apply (bool_decide_unpack _). vm_compute. exact I.
Defined.

Lemma create_quiz_hides_flags_witness :
  snd (create_quiz (P := reliable) kerning_quiz in_classroom)
  = snd (create_quiz (P := reliable) kerning_quiz_swapped in_classroom).
Proof.
  apply (create_quiz_hides_flags (P := reliable) in_classroom kerning_quiz kerning_quiz_swapped).
  reflexivity.
Defined.

Lemma create_flash_card_without_peer_witness :
  exists w' status card,
    create_flash_card (P := reliable) "What is kerning?" "Letter-pair spacing" offline
    = (w', inr status) /\
    rpc_log w' = rpc_log offline /\
    flash_cards (userdata w') = flash_cards (userdata offline) ++ [card].
Proof.
  destruct (create_flash_card_without_peer (P := reliable) offline
              "What is kerning?" "Letter-pair spacing")
    as (w' & status & card & Hrun & Hlog & Hcards & _).
  - vm_compute. exact I.
  - by exists w', status, card.
Defined.

Lemma empty_quiz_reported_not_found_witness :
  handle_submit_quiz (P := reliable) classroom empty_quiz_submission with_empty_quiz
  = (with_empty_quiz, inr "error: Quiz not found").
Proof.
  refine (proj1 (proj2 (empty_quiz_reported_not_found (P := reliable) classroom
           with_empty_quiz empty_quiz_submission
           [("id", PyStr "uuid-0"); ("answers", PyDict [])]
           (Quiz.mk "uuid-0" []) _ _ _ _ _))).
  - vm_compute. reflexivity.
  - reflexivity.
  - discriminate.
  - vm_compute. reflexivity.
  - reflexivity.
Defined.

(** * Further properties *)

(** ** Invariants along a computation *)

Lemma keeps_ret {A} (I : World -> Prop) (a : A) : keeps I (ret a).
Proof. by intros w. Qed.

Lemma keeps_lift {A} (I : World -> Prop) (r : exn + A) : keeps I (lift r).
Proof. by intros w. Qed.

Lemma keeps_get_world (I : World -> Prop) : keeps I get_world.
Proof. by intros w. Qed.

Lemma keeps_bind {A B} (I : World -> Prop) (m : M A) (k : A -> M B) :
  keeps I m -> (forall a, keeps I (k a)) -> keeps I (bind m k).
Proof.
  intros Hm Hk w Hw. unfold bind. specialize (Hm w Hw).
  destruct (m w) as [w1 [e|a]]; [exact Hm|]. by apply Hk.
Qed.

Lemma keeps_try_except {A} (I : World -> Prop) (m : M A) (h : exn -> M A) :
  keeps I m -> (forall e, keeps I (h e)) -> keeps I (try_except m h).
Proof.
  intros Hm Hh w Hw. unfold try_except. specialize (Hm w Hw).
  destruct (m w) as [w1 [e|a]]; [by apply Hh|exact Hm].
Qed.

Lemma keeps_for_each {A B} (I : World -> Prop) (body : A -> M B) (l : list A) :
  (forall x, keeps I (body x)) -> keeps I (for_each body l).
Proof.
  intros Hbody. induction l as [|x l IH]; cbn [for_each]; [apply keeps_ret|].
  apply keeps_bind; [apply Hbody|]. intros y.
  apply keeps_bind; [apply IH|]. intros ys. apply keeps_ret.
Qed.

Lemma keeps_read_only {A} (I : World -> Prop) (m : M A) :
  (forall w, fst (m w) = w) -> keeps I m.
Proof. intros Hm w Hw. by rewrite Hm. Qed.

(** Breaks a computation down to the effects it is made of. *)
Ltac keeps_step :=
  first
    [ solve [auto]
    | apply keeps_ret
    | apply keeps_lift
    | apply keeps_get_world
    | apply keeps_try_except; [|intros ?]
    | apply keeps_for_each; intros ?
    | apply keeps_bind; [|intros ?]
    | match goal with
      | |- keeps _ (match ?x with _ => _ end) => destruct x
      | |- keeps _ (if ?x then _ else _) => destruct x
      end ].

Section Invariants.
Context {P : Platform}.
Variable I : World -> Prop.
Hypothesis HI : effect_invariant I.

Lemma keeps_check_quiz_answers (quiz_id user_answers : pyval) :
  keeps I (check_quiz_answers quiz_id user_answers).
Proof. apply keeps_read_only. apply check_quiz_answers_fst. Qed.

Lemma keeps_create_flash_card (question answer : string) :
  keeps I (create_flash_card question answer).
Proof. destruct HI. unfold create_flash_card. repeat keeps_step. Qed.

Lemma keeps_create_quiz (questions : list QuizQuestionDict.t) :
  keeps I (create_quiz questions).
Proof. destruct HI. unfold create_quiz. repeat keeps_step. Qed.

Lemma keeps_agent_flip_flash_card (card_id : string) :
  keeps I (AvatarAgent.flip_flash_card card_id).
Proof. destruct HI. unfold AvatarAgent.flip_flash_card. repeat keeps_step. Qed.

Lemma keeps_handle_flip_flash_card (payload_str : string) :
  keeps I (handle_flip_flash_card payload_str).
Proof.
  destruct HI. unfold handle_flip_flash_card, flip_flash_card_body. repeat keeps_step.
Qed.

Lemma keeps_question_feedback (rm : Room) (r : QuizResult) :
  keeps I (question_feedback rm r).
Proof.
  destruct HI. unfold question_feedback, answer_text.
  repeat keeps_step; by intros w.
Qed.

Lemma keeps_handle_submit_quiz (rm : Room) (payload_str : string) :
  keeps I (handle_submit_quiz rm payload_str).
Proof.
  pose proof keeps_check_quiz_answers. pose proof keeps_question_feedback.
  destruct HI. unfold handle_submit_quiz, submit_quiz_body. repeat keeps_step.
Qed.

(** Every action keeps what every effect keeps. *)
Lemma keeps_run_action (a : Action) (w : World) : I w -> I (run_action a w).
Proof.
  destruct a; cbn [run_action].
  - apply keeps_create_flash_card.
  - apply keeps_agent_flip_flash_card.
  - apply keeps_create_quiz.
  - apply keeps_handle_flip_flash_card.
  - apply keeps_handle_submit_quiz.
Qed.

Lemma keeps_run_session (actions : list Action) (w : World) :
  I w -> I (run_session actions w).
Proof.
  revert w. induction actions as [|a actions IH]; intros w Hw; [done|].
  cbn [run_session fold_left]. apply IH. by apply keeps_run_action.
Qed.

End Invariants.

(** ** What a session keeps *)

Lemma grows_trans (w1 w2 w3 : World) : grows w1 w2 -> grows w2 w3 -> grows w1 w3.
Proof. intros [Hq1 Hc1] [Hq2 Hc2]. split; by etrans. Qed.

Lemma extends_refl (w : World) : extends w w.
Proof. unfold extends. split_and!; [apply grows_refl|done..]. Qed.

Lemma extends_trans (w1 w2 w3 : World) : extends w1 w2 -> extends w2 w3 -> extends w1 w3.
Proof.
  intros (Hg1 & Hc1 & Hn1 & Hr1 & Hs1) (Hg2 & Hc2 & Hn2 & Hr2 & Hs2).
  unfold extends. split_and!;
    [by eapply grows_trans|congruence|lia|by etrans|by etrans].
Qed.

Section SessionInvariants.
Context {P : Platform}.

Lemma flip_flash_card_ids {B} (card_id : pyval) (f : FlashCard.t -> B) (w : World) :
  (forall b card, f (set_is_flipped b card) = f card) ->
  f <$> flash_cards (userdata (fst (flip_flash_card card_id w)))
  = f <$> flash_cards (userdata w).
Proof.
  intros Hf.
  destruct (find_flash_card card_id (userdata w)) as [[i card]|] eqn:Hfind.
  - rewrite (flip_flash_card_found _ _ _ _ Hfind).
    apply find_flash_card_Some in Hfind as [Hi _].
    cbn [fst userdata with_flash_cards set_flash_cards flash_cards].
    rewrite list_fmap_insert, Hf.
    apply list_insert_id. by rewrite list_lookup_fmap, Hi.
  - unfold flip_flash_card, bind, get_world. by rewrite Hfind.
Qed.

Lemma flip_flash_card_rest (card_id : pyval) (w : World) :
  let w' := fst (flip_flash_card card_id w) in
  ctx (userdata w') = ctx (userdata w) /\ quizzes (userdata w') = quizzes (userdata w) /\
  uuid_drawn w' = uuid_drawn w /\ rpc_log w' = rpc_log w /\ spoken w' = spoken w.
Proof.
  destruct (find_flash_card card_id (userdata w)) as [[i card]|] eqn:Hfind.
  - by rewrite (flip_flash_card_found _ _ _ _ Hfind).
  - unfold flip_flash_card, bind, get_world. by rewrite Hfind.
Qed.

Lemma extends_effects (w0 : World) : effect_invariant (extends w0).
Proof.
  split.
  - intros question answer w Hw. eapply extends_trans; [exact Hw|].
    rewrite add_flash_card_run. unfold extends, grows. simpl.
    split_and!; [done| |done|lia|done|done].
    rewrite fmap_app. by apply prefix_app_r.
  - intros card_id w Hw. eapply extends_trans; [exact Hw|].
    destruct (flip_flash_card_rest card_id w) as (Hc & Hq & Hn & Hr & Hs).
    unfold extends, grows. rewrite Hc, Hq, Hn, Hr, Hs.
    rewrite (flip_flash_card_ids card_id (set_is_flipped false)); [done|].
    by intros b [].
  - intros questions w Hw. eapply extends_trans; [exact Hw|].
    destruct (add_quiz_run questions w) as (quiz & -> & _).
    unfold extends, grows. simpl. split_and!; [by apply prefix_app_r|done|done|lia|done|done].
  - intros dest meth body w Hw. eapply extends_trans; [exact Hw|].
    unfold extends, grows. simpl. split_and!; [done..|by apply prefix_app_r|done].
  - intros text w Hw. eapply extends_trans; [exact Hw|].
    unfold say. destruct (say_outcome (spoken w) text); [apply extends_refl|].
    unfold extends, grows. simpl. split_and!; [done..|by apply prefix_app_r].
Qed.

Lemma ids_drawn_effects : effect_invariant ids_drawn.
Proof.
  split.
  - intros question answer w [Hc Hq]. rewrite add_flash_card_run.
    unfold ids_drawn. cbn [fst userdata with_flash_cards set_flash_cards drew
                           flash_cards quizzes uuid_drawn].
    replace (1 + uuid_drawn w) with (uuid_drawn w + 1) by lia.
    rewrite seq_app, !fmap_app. split.
    + by apply sublist_app.
    + by apply sublist_inserts_r.
  - intros card_id w [Hc Hq].
    destruct (flip_flash_card_rest card_id w) as (_ & Hqs & Hn & _).
    unfold ids_drawn. rewrite Hqs, Hn.
    rewrite (flip_flash_card_ids card_id FlashCard.id); [done|]. by intros b [].
  - intros questions w [Hc Hq].
    destruct (add_quiz_run questions w) as (quiz & -> & _ & Hids).
    unfold ids_drawn. cbn [fst userdata with_quizzes set_quizzes drew
                           flash_cards quizzes uuid_drawn].
    replace (S (ids_needed questions) + uuid_drawn w)
      with (uuid_drawn w + S (ids_needed questions)) by lia.
    rewrite seq_app, !fmap_app, concat_app. cbn [concat fmap list_fmap].
    rewrite app_nil_r, Hids. split.
    + by apply sublist_inserts_r.
    + by apply sublist_app.
  - by intros dest meth body w Hw.
  - intros text w Hw. unfold say. by destruct (say_outcome (spoken w) text).
Qed.

(** X1: whatever the tools and handlers of a session do, in any order and
    with any arguments and payloads, the quizzes stored before are an
    initial segment of those stored after, and so are the flash cards up
    to their flags; the job context is the same, no identifier is handed
    back, and the calls made and texts said before stay where they
    were. *)
Theorem session_extends (actions : list Action) (w : World) :
  extends w (run_session actions w).
Proof.
  apply (keeps_run_session (extends w)); [apply extends_effects|apply extends_refl].
Qed.

Lemma quiz_ids_sublist (qs : list Quiz.t) :
  (Quiz.id <$> qs) `sublist_of` concat (quiz_ids <$> qs).
Proof.
  induction qs as [|quiz qs IH]; [done|].
  cbn [fmap list_fmap concat]. unfold quiz_ids at 1.
  rewrite <- app_assoc. apply sublist_inserts_l. by apply sublist_skip.
Qed.

Lemma option_ids_sublist (qs : list Quiz.t) (quiz : Quiz.t) (question : QuizQuestion.t) :
  quiz ∈ qs -> question ∈ Quiz.questions quiz ->
  (QuizAnswer.id <$> QuizQuestion.answers question)
    `sublist_of` concat (quiz_ids <$> qs).
Proof.
  intros (l1 & l2 & ->)%list_elem_of_split (k1 & k2 & Hk)%list_elem_of_split.
  rewrite fmap_app, concat_app. apply sublist_inserts_l.
  cbn [fmap list_fmap concat]. apply sublist_inserts_r.
  unfold quiz_ids. rewrite Hk, fmap_app, concat_app. apply sublist_inserts_r.
  apply sublist_inserts_l. cbn [fmap list_fmap concat]. apply sublist_inserts_r.
  unfold question_ids. by apply sublist_inserts_r.
Qed.

Lemma new_session_ids_drawn (c : option JobContext) (actions : list Action) :
  ids_drawn (run_session actions (new_world c)).
Proof.
  apply (keeps_run_session ids_drawn ids_drawn_effects).
  split; apply sublist_nil_l.
Qed.

Lemma ids_drawn_distinct (w : World) :
  ids_drawn w -> NoDup (uuid4 <$> seq 0 (uuid_drawn w)) ->
  NoDup (FlashCard.id <$> flash_cards (userdata w)) /\
  NoDup (Quiz.id <$> quizzes (userdata w)) /\
  (forall quiz question,
      quiz ∈ quizzes (userdata w) -> question ∈ Quiz.questions quiz ->
      NoDup (QuizAnswer.id <$> QuizQuestion.answers question)).
Proof.
  intros [Hc Hq] Hdraws. split_and!.
  - exact (sublist_NoDup _ _ Hdraws Hc).
  - exact (sublist_NoDup _ _ (sublist_NoDup _ _ Hdraws Hq) (quiz_ids_sublist _)).
  - intros quiz question Hquiz Hquestion.
    exact (sublist_NoDup _ _ (sublist_NoDup _ _ Hdraws Hq)
             (option_ids_sublist _ _ _ Hquiz Hquestion)).
Qed.

(** X2: in a world reached from a new session, if the identifiers drawn
    so far are pairwise distinct, so are the ids of the stored flash
    cards, the ids of the stored quizzes, and the ids of the options of
    any one stored question. *)
Theorem session_ids_distinct (c : option JobContext) (actions : list Action) :
  let w := run_session actions (new_world c) in
  NoDup (uuid4 <$> seq 0 (uuid_drawn w)) ->
  NoDup (FlashCard.id <$> flash_cards (userdata w)) /\
  NoDup (Quiz.id <$> quizzes (userdata w)) /\
  (forall quiz question,
      quiz ∈ quizzes (userdata w) -> question ∈ Quiz.questions quiz ->
      NoDup (QuizAnswer.id <$> QuizQuestion.answers question)).
Proof.
  intros w Hdraws. apply ids_drawn_distinct; [apply new_session_ids_drawn|done].
Qed.

(** Among records with pairwise distinct ids, the search by a record's
    own id stops at that record. *)
Lemma list_find_own_id {A} (f : A -> string) (l : list A) (x : A) :
  NoDup (f <$> l) -> x ∈ l ->
  exists i, list_find (fun y => py_str_eq (f y) (PyStr (f x)) = true) l = Some (i, x).
Proof.
  intros Hnd (i & Hi)%list_elem_of_lookup. exists i.
  apply list_find_Some. split_and!; [done|apply String.eqb_refl|].
  intros j y Hj Hlt Heq. apply String.eqb_eq in Heq.
  assert (j = i); [|lia].
  apply (NoDup_lookup (f <$> l) j i (f x)); [done|..];
    rewrite list_lookup_fmap; [rewrite Hj|rewrite Hi]; simpl; congruence.
Qed.

(** X3: in a world reached from a new session with pairwise distinct
    draws, looking up any stored flash card by its own id returns that
    card, and looking up any stored quiz by its own id returns that quiz;
    neither lookup changes the world. *)
Theorem session_lookup_by_own_id (c : option JobContext) (actions : list Action) :
  let w := run_session actions (new_world c) in
  NoDup (uuid4 <$> seq 0 (uuid_drawn w)) ->
  (forall card, card ∈ flash_cards (userdata w) ->
     get_flash_card (PyStr (FlashCard.id card)) w = (w, inr (Some card))) /\
  (forall quiz, quiz ∈ quizzes (userdata w) ->
     get_quiz (PyStr (Quiz.id quiz)) w = (w, inr (Some quiz))).
Proof.
  intros w Hdraws.
  destruct (ids_drawn_distinct w (new_session_ids_drawn c actions) Hdraws)
    as (Hcards & Hquizzes & _).
  split.
  - intros card Hin. destruct (list_find_own_id FlashCard.id _ card Hcards Hin) as [i Hi].
    unfold get_flash_card, bind, get_world, ret, find_flash_card. by rewrite Hi.
  - intros quiz Hin. destruct (list_find_own_id Quiz.id _ quiz Hquizzes Hin) as [i Hi].
    unfold get_quiz, bind, get_world, ret, find_quiz. by rewrite Hi.
Qed.

End SessionInvariants.

Section MoreGrading.
Context {P : Platform}.

(** ** Grading: which option is selected, which is correct *)

(** X4: when grading a stored quiz with a mapping, the selected answer of
    a question is the last of its options whose id equals the id chosen
    for it, the correct answer is the last of its options flagged
    correct, and [is_correct] is the selected option's flag; each is
    absent when there is no such option. *)
Theorem check_quiz_answers_last_wins (quiz_id : pyval) (d : list (string * pyval))
    (w : World) (quiz : Quiz.t) :
  find_quiz quiz_id (userdata w) = Some quiz ->
  exists results,
    check_quiz_answers quiz_id (PyDict d) w = (w, inr results) /\
    Forall2 (fun question r =>
               let chosen := dict_get d (QuizQuestion.id question) PyNone in
               res_question r = question /\
               res_selected_answer r
               = last (filter (fun a => py_str_eq (QuizAnswer.id a) chosen = true)
                              (QuizQuestion.answers question)) /\
               res_correct_answer r
               = last (filter (fun a => QuizAnswer.is_correct a = true)
                              (QuizQuestion.answers question)) /\
               res_is_correct r = QuizAnswer.is_correct <$> res_selected_answer r)
            (Quiz.questions quiz) results.
Proof.
  intros Hfind. eexists. split; [apply check_quiz_answers_run|]. rewrite Hfind.
  apply Forall2_fmap_r, Forall_Forall2_diag, Forall_forall.
  intros question _. unfold compose, grade_question. cbv zeta.
  cbn [res_question res_selected_answer res_correct_answer res_is_correct].
  by rewrite scan_answers_last.
Qed.

Lemma dict_or_not (v : pyval) : (exists d, v = PyDict d) \/ (forall d, v <> PyDict d).
Proof. destruct v; try (by right); left; by eexists. Qed.

Lemma py_get_not_dict (v : pyval) (key : string) (default : pyval) :
  (forall d, v <> PyDict d) -> py_get v key default = inl (no_attribute v "get").
Proof. intros Hv. destruct v; try done. by destruct (Hv d). Qed.

(** X5: grading with something that is not a mapping raises
    [AttributeError] when the stored quiz found has a question, and
    returns the empty list when it has none or no quiz is found; the
    world is the same afterwards. *)
Theorem check_quiz_answers_not_a_mapping (quiz_id user_answers : pyval) (w : World) :
  (forall d, user_answers <> PyDict d) ->
  (forall quiz, find_quiz quiz_id (userdata w) = Some quiz ->
                Quiz.questions quiz <> [] ->
                check_quiz_answers quiz_id user_answers w
                = (w, inl (no_attribute user_answers "get"))) /\
  ((forall quiz, find_quiz quiz_id (userdata w) = Some quiz -> Quiz.questions quiz = []) ->
   check_quiz_answers quiz_id user_answers w = (w, inr [])).
Proof.
  intros Hv. split.
  - intros quiz Hfind Hne.
    unfold check_quiz_answers, bind at 1. cbn [get_quiz bind get_world ret]. rewrite Hfind.
    destruct (Quiz.questions quiz) as [|question questions]; [done|].
    cbn [for_each]. unfold bind, lift. by rewrite py_get_not_dict.
  - apply check_quiz_answers_empty.
Qed.

End MoreGrading.

Section MoreHandlers.
Context {P : Platform}.

(** ** Replies to payloads that are turned down *)

(** X6: the quiz-submission handler leaves the world as it was and
    replies with an error text when the payload does not decode (the
    decoder's message), decodes to something else than a dict, has no id
    or a false one, names no stored quiz, or names a stored quiz with
    questions while its answers are not a mapping. *)
Theorem handle_submit_quiz_turns_down (rm : Room) (payload_str : string) (w : World) :
  (forall e, json_loads payload_str = inl e ->
     handle_submit_quiz rm payload_str w = (w, inr ("error: " +:+ str_exn e))) /\
  (forall v, json_loads payload_str = inr v -> (forall d, v <> PyDict d) ->
     handle_submit_quiz rm payload_str w
     = (w, inr ("error: '" +:+ py_type_name v +:+ "' object has no attribute 'get'"))) /\
  (forall d, json_loads payload_str = inr (PyDict d) ->
     py_truthy (dict_get d "id" PyNone) = false ->
     handle_submit_quiz rm payload_str w = (w, inr "error: No quiz ID found in payload")) /\
  (forall d, json_loads payload_str = inr (PyDict d) ->
     py_truthy (dict_get d "id" PyNone) = true ->
     find_quiz (dict_get d "id" PyNone) (userdata w) = None ->
     handle_submit_quiz rm payload_str w = (w, inr "error: Quiz not found")) /\
  (forall d quiz, json_loads payload_str = inr (PyDict d) ->
     py_truthy (dict_get d "id" PyNone) = true ->
     find_quiz (dict_get d "id" PyNone) (userdata w) = Some quiz ->
     Quiz.questions quiz <> [] ->
     (forall a, dict_get d "answers" (PyDict []) <> PyDict a) ->
     handle_submit_quiz rm payload_str w
     = (w, inr ("error: '" +:+ py_type_name (dict_get d "answers" (PyDict []))
                +:+ "' object has no attribute 'get'"))).
Proof.
  unfold handle_submit_quiz, try_except, submit_quiz_body. split_and!.
  - intros e Hloads.
    by rewrite (bind_inl _ _ w w e) by (unfold lift; by rewrite Hloads).
  - intros v Hloads Hv.
    rewrite (bind_inr _ _ w w v) by (unfold lift; by rewrite Hloads).
    by rewrite (bind_inl _ _ w w (no_attribute v "get"))
      by (unfold lift; by rewrite py_get_not_dict).
  - intros d Hloads Hid.
    rewrite (bind_inr _ _ w w (PyDict d)) by (unfold lift; by rewrite Hloads).
    rewrite (bind_inr _ _ w w (dict_get d "id" PyNone)) by reflexivity.
    rewrite (bind_inr _ _ w w (dict_get d "answers" (PyDict []))) by reflexivity.
    by rewrite Hid.
  - intros d Hloads Hid Hfind.
    rewrite (bind_inr _ _ w w (PyDict d)) by (unfold lift; by rewrite Hloads).
    rewrite (bind_inr _ _ w w (dict_get d "id" PyNone)) by reflexivity.
    rewrite (bind_inr _ _ w w (dict_get d "answers" (PyDict []))) by reflexivity.
    rewrite Hid. cbn [negb].
    rewrite (bind_inr _ _ w w []); [done|].
    apply check_quiz_answers_empty. intros quiz. by rewrite Hfind.
  - intros d quiz Hloads Hid Hfind Hne Hans.
    rewrite (bind_inr _ _ w w (PyDict d)) by (unfold lift; by rewrite Hloads).
    rewrite (bind_inr _ _ w w (dict_get d "id" PyNone)) by reflexivity.
    rewrite (bind_inr _ _ w w (dict_get d "answers" (PyDict []))) by reflexivity.
    rewrite Hid. cbn [negb].
    rewrite (bind_inl _ _ w w (no_attribute (dict_get d "answers" (PyDict [])) "get"));
      [done|].
    unfold check_quiz_answers, bind at 1. cbn [get_quiz bind get_world ret]. rewrite Hfind.
    destruct (Quiz.questions quiz) as [|question questions]; [done|].
    cbn [for_each]. unfold bind, lift. by rewrite py_get_not_dict.
Qed.

(** ** The flip handler *)

Lemma flip_flash_card_returns (card_id : pyval) (w : World) :
  exists card, flip_flash_card card_id w = (fst (flip_flash_card card_id w), inr card).
Proof.
  destruct (find_flash_card card_id (userdata w)) as [[i card]|] eqn:Hfind.
  - rewrite (flip_flash_card_found _ _ _ _ Hfind). by eexists.
  - unfold flip_flash_card, bind, get_world. rewrite Hfind. by eexists.
Qed.

(** What the flip handler does to a payload that decodes to a dict. *)
Lemma handle_flip_flash_card_dict (payload_str : string) (d : list (string * pyval))
    (w : World) :
  json_loads payload_str = inr (PyDict d) ->
  handle_flip_flash_card payload_str w
  = (if py_truthy (dict_get d "id" PyNone)
     then fst (flip_flash_card (dict_get d "id" PyNone) w) else w,
     inr None).
Proof.
  intros Hloads. unfold handle_flip_flash_card, try_except, flip_flash_card_body.
  rewrite (bind_inr _ _ w w (PyDict d)) by (unfold lift; by rewrite Hloads).
  rewrite (bind_inr _ _ w w (dict_get d "id" PyNone)) by reflexivity.
  destruct (py_truthy (dict_get d "id" PyNone)); [|done].
  destruct (flip_flash_card_returns (dict_get d "id" PyNone) w) as [card Hflip].
  unfold bind at 1 2. rewrite Hflip. by destruct card.
Qed.


End MoreHandlers.

Section MoreTools.
Context {P : Platform}.

(** ** The tools, with a peer to tell *)

(** X8: with a remote participant in the room, [create_flash_card] stores
    the new card and calls the first participant under [client.flashcard]
    with the card's id and texts and, as index, the position the card
    has in the store.  It returns its confirmation if the call returns,
    and raises what the call raises, the card staying stored. *)
Theorem create_flash_card_with_peer (w : World) (question answer : string)
    (c : JobContext) (rm : Room) (name : string) (peer : RemoteParticipant)
    (others : list (string * RemoteParticipant)) :
  ctx (userdata w) = Some c -> room c = Some rm ->
  remote_participants rm = (name, peer) :: others ->
  let card := FlashCard.mk (uuid4 (uuid_drawn w)) question answer false in
  let cards := flash_cards (userdata w) in
  let call :=
    {| destination_identity := identity peer;
       method := "client.flashcard";
       payload := json_dumps
         (PyDict [("action", PyStr "show"); ("id", PyStr (uuid4 (uuid_drawn w)));
                  ("question", PyStr question); ("answer", PyStr answer);
                  ("index", PyInt (Z.of_nat (length cards)))]) |} in
  create_flash_card question answer w
  = (with_call call (with_flash_cards (cards ++ [card]) (drew 1 w)),
     match perform_rpc_outcome (rpc_log w) call with
     | inl e => inl e
     | inr _ => inr ("I've created a flash card with the question: '" +:+ question +:+ "'")
     end) /\
  (cards ++ [card]) !! length cards = Some card.
Proof.
  intros Hctx Hroom Hpeers card cards call. split.
  - unfold create_flash_card.
    rewrite (bind_inr _ _ _ _ _ (add_flash_card_run w question answer)).
    unfold bind at 1, get_world.
    cbn [userdata with_flash_cards set_flash_cards ctx drew flash_cards].
    rewrite Hctx, Hroom, Hpeers. cbn [first_participant map head snd].
    unfold bind, perform_rpc, ret, flash_card_payload.
    cbn [FlashCard.id FlashCard.question FlashCard.answer rpc_log with_flash_cards drew].
    rewrite length_app. cbn [length].
    replace (Z.of_nat (length (flash_cards (userdata w)) + 1) - 1)%Z
      with (Z.of_nat (length (flash_cards (userdata w)))) by lia.
    fold cards. fold call. by destruct (perform_rpc_outcome (rpc_log w) call).
  - by rewrite lookup_app_r, Nat.sub_diag.
Qed.

(** X9: [create_quiz] stores the quiz in every case, leaving the flash
    cards alone.  Without a peer it sends nothing and returns a status
    text; with one it calls the first participant under [client.quiz]
    with the rendering of the quiz, and returns its confirmation with the
    number of questions if the call returns, or raises what the call
    raises. *)
Theorem create_quiz_stores (w : World) (questions : list QuizQuestionDict.t) :
  exists quiz,
    let w1 := with_quizzes (quizzes (userdata w) ++ [quiz])
                           (drew (S (ids_needed questions)) w) in
    Forall2 question_matches questions (Quiz.questions quiz) /\
    (no_peer (userdata w) ->
       exists status,
         create_quiz questions w = (w1, inr status) /\
         (status = "Created a quiz, but couldn't access the room to send it." \/
          status = "Created a quiz, but no participants found to send it to.")) /\
    (forall c rm name peer others,
       ctx (userdata w) = Some c -> room c = Some rm ->
       remote_participants rm = (name, peer) :: others ->
       let call := {| destination_identity := identity peer;
                      method := "client.quiz";
                      payload := json_dumps (quiz_payload quiz) |} in
       create_quiz questions w
       = (with_call call w1,
          match perform_rpc_outcome (rpc_log w) call with
          | inl e => inl e
          | inr _ => inr ("I've created a quiz with " +:+ pretty (length questions)
                          +:+ " questions. Please answer them when you're ready.")
          end)).
Proof.
  destruct (add_quiz_run questions w) as (quiz & Hrun & Hmatch & _).
  exists quiz. cbv zeta. split; [done|].
  unfold create_quiz. rewrite (bind_inr _ _ _ _ _ Hrun).
  split.
  - unfold bind at 1, get_world. cbn [userdata with_quizzes set_quizzes ctx drew].
    unfold no_peer. intros Hnone.
    destruct (ctx (userdata w)) as [c|]; [destruct (room c) as [rm|]|].
    + rewrite Hnone. eexists. split; [reflexivity|]. by right.
    + eexists. split; [reflexivity|]. by left.
    + eexists. split; [reflexivity|]. by left.
  - unfold bind at 1, get_world. cbn [userdata with_quizzes set_quizzes ctx drew].
    intros c rm name peer others -> -> ->. cbn [first_participant map head snd].
    unfold bind, perform_rpc, ret. cbn [rpc_log with_quizzes drew].
    by destruct (perform_rpc_outcome _ _).
Qed.

(** ** The flip tool *)

(** X10: asked to flip an id that no stored card has, the tool changes
    nothing, sends nothing and returns a text naming the id. *)
Theorem agent_flip_flash_card_unknown (w : World) (card_id : string) :
  (forall card, card ∈ flash_cards (userdata w) -> FlashCard.id card <> card_id) ->
  AvatarAgent.flip_flash_card card_id w
  = (w, inr ("Flash card with ID " +:+ card_id +:+ " not found.")).
Proof.
  intros Hno. unfold AvatarAgent.flip_flash_card.
  rewrite (bind_inr _ _ w w None); [done|].
  unfold flip_flash_card, bind, get_world.
  replace (find_flash_card (PyStr card_id) (userdata w)) with (@None (nat * FlashCard.t));
    [done|].
  symmetry. apply find_flash_card_None. intros card Hin [= Heq]. by apply (Hno card).
Qed.

(** X11: asked to flip the id of a stored card, the tool flips the first
    card with that id even when there is nobody to tell, in which case it
    sends nothing and returns a status text.  With a remote participant
    it calls the first one under [client.flashcard] with action [flip]
    and the id, and its confirmation names the side now shown: the answer
    if the card is flipped after the call, the question if not. *)
Theorem agent_flip_flash_card_known (w : World) (card_id : string) (i : nat)
    (card : FlashCard.t) :
  find_flash_card (PyStr card_id) (userdata w) = Some (i, card) ->
  let card' := set_is_flipped (negb (FlashCard.is_flipped card)) card in
  let w1 := with_flash_cards (<[i := card']> (flash_cards (userdata w))) w in
  (no_peer (userdata w) ->
     exists status,
       AvatarAgent.flip_flash_card card_id w = (w1, inr status) /\
       (status = "Flipped the flash card, but couldn't access the room to send it." \/
        status = "Flipped the flash card, but no participants found to send it to.")) /\
  (forall c rm name peer others,
     ctx (userdata w) = Some c -> room c = Some rm ->
     remote_participants rm = (name, peer) :: others ->
     let call := {| destination_identity := identity peer;
                    method := "client.flashcard";
                    payload := json_dumps (PyDict [("action", PyStr "flip");
                                                   ("id", PyStr card_id)]) |} in
     AvatarAgent.flip_flash_card card_id w
     = (with_call call w1,
        match perform_rpc_outcome (rpc_log w) call with
        | inl e => inl e
        | inr _ => inr ("I've flipped the flash card to show the "
                        +:+ (if FlashCard.is_flipped card then "question" else "answer"))
        end)).
Proof.
  intros Hfind card' w1.
  pose proof (find_flash_card_Some _ _ _ _ Hfind) as [_ [= Hid]].
  unfold AvatarAgent.flip_flash_card.
  rewrite (bind_inr _ _ _ _ _ (flip_flash_card_found _ _ _ _ Hfind)).
  split.
  - unfold bind at 1, get_world. cbn [userdata with_flash_cards set_flash_cards ctx].
    unfold no_peer. intros Hnone.
    destruct (ctx (userdata w)) as [c|]; [destruct (room c) as [rm|]|].
    + rewrite Hnone. eexists. split; [reflexivity|]. by right.
    + eexists. split; [reflexivity|]. by left.
    + eexists. split; [reflexivity|]. by left.
  - unfold bind at 1, get_world. cbn [userdata with_flash_cards set_flash_cards ctx].
    intros c rm name peer others -> -> ->. cbn [first_participant map head snd].
    unfold bind, perform_rpc, ret, flip_payload.
    cbn [rpc_log with_flash_cards FlashCard.id FlashCard.is_flipped set_is_flipped].
    rewrite Hid. destruct (perform_rpc_outcome _ _); [done|].
    by destruct (FlashCard.is_flipped card).
Qed.

End MoreTools.

Section Submission.
Context {P : Platform}.

(** ** A submission, step by step *)

Lemma with_remedial_cards_nil (rm : Room) (w : World) : with_remedial_cards rm [] w = w.
Proof.
  destruct w as [[c cards qs] n log said]. unfold with_remedial_cards, set_flash_cards.
  cbn. rewrite app_nil_r.
  destruct (first_participant (remote_participants rm)); by rewrite app_nil_r.
Qed.

Lemma with_remedial_cards_cons (rm : Room) (card : FlashCard.t) (new : list FlashCard.t)
    (w : World) :
  let cards := flash_cards (userdata w) ++ [card] in
  let w1 := with_flash_cards cards (drew 1 w) in
  with_remedial_cards rm new
    match first_participant (remote_participants rm) with
    | Some peer => with_call (show_card_call peer card cards) w1
    | None => w1
    end
  = with_remedial_cards rm (card :: new) w.
Proof.
  destruct w as [[c cards0 qs] n log said].
  unfold with_remedial_cards, with_call, with_flash_cards, drew, set_flash_cards.
  destruct (first_participant (remote_participants rm)) as [peer|]; cbn;
    rewrite <- !app_assoc; repeat f_equal; lia.
Qed.

(** The whole loop, when no call to the peer raises. *)
Lemma for_each_feedback_run (rm : Room) (rs : list QuizResult) :
  (forall log call, exists reply, perform_rpc_outcome log call = inr reply) ->
  Forall graded rs ->
  (forall r, r ∈ rs -> result_truthy r = false -> is_Some (res_correct_answer r)) ->
  forall w, exists texts new,
    for_each (question_feedback rm) rs w = (with_remedial_cards rm new w, inr texts) /\
    length texts = length rs /\
    Forall2 card_for (filter (fun r => result_truthy r = false) rs) new /\
    FlashCard.id <$> new = uuid4 <$> seq (uuid_drawn w) (length new).
Proof.
  intros Hrel. induction rs as [|r rs IH]; intros Hg Hcor w.
  - exists [], []. rewrite with_remedial_cards_nil. split_and!; [done|done|constructor|done].
  - apply Forall_cons in Hg as [Hg Hgs].
    assert (Hcor' : forall r', r' ∈ rs -> result_truthy r' = false ->
                               is_Some (res_correct_answer r'))
      by (intros r' Hin; apply Hcor; by right).
    rewrite filter_cons. cbn [for_each].
    destruct (result_truthy r) eqn:Ht.
    + destruct (question_feedback_right rm r Hg Ht) as (text & Hr).
      destruct (IH Hgs Hcor' w) as (texts & new & Hrun & Hlen & Hcards & Hids).
      exists (text :: texts), new.
      rewrite (bind_inr _ _ _ _ _ (Hr w)), (bind_inr _ _ _ _ _ Hrun).
      rewrite decide_False by done. split_and!; [done|by cbn; rewrite Hlen|done|done].
    + destruct (Hcor r) as [c Hc]; [by left|done|].
      destruct (question_feedback_wrong_run rm r c w Ht Hc) as (text & Hr).
      set (card := remedial_card (uuid_drawn w) r c) in *.
      set (cards := flash_cards (userdata w) ++ [card]) in *.
      set (w1 := match first_participant (remote_participants rm) with
                 | Some peer => with_call (show_card_call peer card cards)
                                          (with_flash_cards cards (drew 1 w))
                 | None => with_flash_cards cards (drew 1 w)
                 end).
      assert (Hr' : question_feedback rm r w = (w1, inr text)).
      { rewrite Hr. unfold w1.
        destruct (first_participant (remote_participants rm)) as [peer|]; [|done].
        by destruct (Hrel (rpc_log w) (show_card_call peer card cards)) as [reply ->]. }
      destruct (IH Hgs Hcor' w1) as (texts & new & Hrun & Hlen & Hcards & Hids).
      exists (text :: texts), (card :: new).
      rewrite (bind_inr _ _ _ _ _ Hr'), (bind_inr _ _ _ _ _ Hrun).
      rewrite decide_True by done. split_and!.
      * unfold ret. f_equal. apply with_remedial_cards_cons.
      * by cbn; rewrite Hlen.
      * constructor; [|done]. split_and!; [done|by exists c|done].
      * cbn [fmap list_fmap length seq]. f_equal. rewrite Hids. f_equal.
        f_equal. unfold w1. by destruct (first_participant (remote_participants rm)).
Qed.

(** X12: when neither the calls to the peer nor the speech raise and
    every question graded incorrect has a correct answer, a graded
    submission gets [success] and leaves behind, in the order of the
    questions, one new unflipped flash card per question graded
    incorrect, with the question's text and the correct answer's text,
    each under its own new identifier and each shown to the first
    participant if there is one; one text is said, which opens with the
    count of correct answers out of all, followed by one feedback per
    question. *)
Theorem handle_submit_quiz_success_path (rm : Room) (w : World) (payload_str : string)
    (d : list (string * pyval)) (results : list QuizResult) :
  calls_return ->
  json_loads payload_str = inr (PyDict d) ->
  py_truthy (dict_get d "id" PyNone) = true ->
  check_quiz_answers (dict_get d "id" PyNone) (dict_get d "answers" (PyDict [])) w
  = (w, inr results) ->
  results <> [] ->
  (forall r, r ∈ results -> result_truthy r = false -> is_Some (res_correct_answer r)) ->
  exists new feedback,
    handle_submit_quiz rm payload_str w
    = (with_said (result_summary results +:+ nl +:+ nl
                  +:+ String.concat (nl +:+ nl) feedback)
                 (with_remedial_cards rm new w),
       inr "success") /\
    length feedback = length results /\
    Forall2 card_for (filter (fun r => result_truthy r = false) results) new /\
    FlashCard.id <$> new = uuid4 <$> seq (uuid_drawn w) (length new).
Proof.
  intros [Hrpc Hsay] Hloads Hid Hcheck Hne Hcor.
  destruct (for_each_feedback_run rm results Hrpc
              (check_quiz_answers_graded _ _ _ _ _ Hcheck) Hcor w)
    as (feedback & new & Hloop & Hlen & Hcards & Hids).
  exists new, feedback. split_and!; [|done..].
  unfold handle_submit_quiz, try_except.
  rewrite (submit_quiz_body_says rm w _ _ _ Hloads Hid Hcheck Hne).
  rewrite (bind_inr _ _ _ _ _ Hloop). unfold bind, say. by rewrite Hsay.
Qed.


(** X14: nothing is undone when a call to the peer raises.  If the first
    question graded incorrect has a correct answer and showing its card
    to the first participant raises, the handler replies with the error,
    the card stays stored, the call stays attempted, nothing is said and
    the questions after it get no card. *)
Theorem handle_submit_quiz_call_raises (rm : Room) (w : World) (payload_str : string)
    (d : list (string * pyval)) (pre post : list QuizResult) (wrong : QuizResult)
    (c : QuizAnswer.t) (peer : RemoteParticipant) (e : exn) :
  json_loads payload_str = inr (PyDict d) ->
  py_truthy (dict_get d "id" PyNone) = true ->
  check_quiz_answers (dict_get d "id" PyNone) (dict_get d "answers" (PyDict [])) w
  = (w, inr (pre ++ wrong :: post)) ->
  Forall (fun r => result_truthy r = true) pre ->
  result_truthy wrong = false ->
  res_correct_answer wrong = Some c ->
  first_participant (remote_participants rm) = Some peer ->
  let card := remedial_card (uuid_drawn w) wrong c in
  let cards := flash_cards (userdata w) ++ [card] in
  perform_rpc_outcome (rpc_log w) (show_card_call peer card cards) = inl e ->
  handle_submit_quiz rm payload_str w
  = (with_call (show_card_call peer card cards) (with_flash_cards cards (drew 1 w)),
     inr ("error: " +:+ str_exn e)).
Proof.
  intros Hloads Hid Hcheck Hpre Hwrong Hc Hpeer card cards Hout.
  pose proof (check_quiz_answers_graded _ _ _ _ _ Hcheck) as Hg.
  apply Forall_app in Hg as [Hgpre _].
  destruct (for_each_feedback_right rm pre Hgpre Hpre) as (xs & Hxs).
  destruct (question_feedback_wrong_run rm wrong c w Hwrong Hc) as (text & Hr).
  rewrite Hpeer in Hr. fold card in Hr. fold cards in Hr. rewrite Hout in Hr.
  unfold handle_submit_quiz, try_except.
  rewrite (submit_quiz_body_says rm w _ _ _ Hloads Hid Hcheck) by (by destruct pre).
  unfold bind at 1. rewrite for_each_app, (bind_inr _ _ _ _ _ (Hxs w)).
  cbn [for_each]. unfold bind at 1 2. by rewrite Hr.
Qed.

End Submission.

Section Flips.
Context {P : Platform}.

(** ** Flips undo flips *)

Lemma flip_flash_card_twice_world (card_id : pyval) (w : World) :
  fst (flip_flash_card card_id (fst (flip_flash_card card_id w))) = w.
Proof.
  destruct (find_flash_card card_id (userdata w)) as [[i card]|] eqn:Hfind.
  - destruct (flip_flash_card_involution _ _ _ _ Hfind) as (w1 & shown & -> & _ & Hback).
    cbn [fst]. by rewrite Hback.
  - assert (Hsame : flip_flash_card card_id w = (w, inr None)).
    { unfold flip_flash_card, bind, get_world. by rewrite Hfind. }
    rewrite Hsame. cbn [fst]. by rewrite Hsame.
Qed.

Lemma handle_flip_flash_card_not_dict (payload_str : string) (w : World) :
  (forall d, json_loads payload_str <> inr (PyDict d)) ->
  fst (handle_flip_flash_card payload_str w) = w.
Proof.
  intros Hnot.
  destruct (json_loads payload_str) as [e|v] eqn:Hloads;
    unfold handle_flip_flash_card, try_except, flip_flash_card_body.
  - by rewrite (bind_inl _ _ w w e) by (unfold lift; by rewrite Hloads).
  - rewrite (bind_inr _ _ w w v) by (unfold lift; by rewrite Hloads).
    rewrite (bind_inl _ _ w w (no_attribute v "get")); [done|].
    unfold lift. rewrite py_get_not_dict; [done|]. intros d ->. by destruct (Hnot d).
Qed.

(** X15: handling the same flip payload twice leaves the world exactly as
    it was, whatever the payload. *)
Theorem handle_flip_flash_card_twice (payload_str : string) (w : World) :
  fst (handle_flip_flash_card payload_str (fst (handle_flip_flash_card payload_str w))) = w.
Proof.
  destruct (json_loads payload_str) as [e|v] eqn:Hloads.
  - rewrite !handle_flip_flash_card_not_dict; [done|intros d; congruence..].
  - destruct (dict_or_not v) as [[d ->]|Hv].
    + rewrite !(handle_flip_flash_card_dict _ _ _ Hloads). cbn [fst].
      destruct (py_truthy (dict_get d "id" PyNone)); [|done].
      apply flip_flash_card_twice_world.
    + rewrite !handle_flip_flash_card_not_dict;
        [done|intros d Hd; rewrite Hloads in Hd; injection Hd as ->; by destruct (Hv d)..].
Qed.

Lemma flip_flash_card_cards (card_id : pyval) (w1 w2 : World) :
  flash_cards (userdata w1) = flash_cards (userdata w2) ->
  flash_cards (userdata (fst (flip_flash_card card_id w1)))
  = flash_cards (userdata (fst (flip_flash_card card_id w2))).
Proof.
  intros Hsame. unfold flip_flash_card, bind, get_world, find_flash_card. rewrite Hsame.
  destruct (list_find _ (flash_cards (userdata w2))) as [[i card]|]; [|done].
  cbn. by rewrite Hsame.
Qed.

Lemma agent_flip_flash_card_cards (card_id : string) (w : World) :
  flash_cards (userdata (fst (AvatarAgent.flip_flash_card card_id w)))
  = flash_cards (userdata (fst (flip_flash_card (PyStr card_id) w))).
Proof.
  unfold AvatarAgent.flip_flash_card.
  destruct (flip_flash_card_returns (PyStr card_id) w) as [card Hflip].
  rewrite (bind_inr _ _ _ _ _ Hflip). destruct card as [card|]; [|done].
  unfold bind at 1, get_world.
  destruct (ctx _) as [c|]; [|done]. destruct (room c) as [rm|]; [|done].
  destruct (remote_participants rm) as [|[name peer] others]; [done|].
  cbn [first_participant map head snd]. unfold bind, perform_rpc.
  by destruct (perform_rpc_outcome _ _).
Qed.

(** X16: the tool and the handler flip the same card, so each undoes the
    other: after the tool flipped a card by its id and the peer's flip
    payload with that id was handled, or the other way round, the flash
    cards are as they were before, whatever the transport did. *)
Theorem flips_undo_each_other (w : World) (card_id payload_str : string)
    (d : list (string * pyval)) :
  json_loads payload_str = inr (PyDict d) ->
  dict_get d "id" PyNone = PyStr card_id ->
  card_id <> "" ->
  flash_cards (userdata (fst (handle_flip_flash_card payload_str
                                (fst (AvatarAgent.flip_flash_card card_id w)))))
  = flash_cards (userdata w) /\
  flash_cards (userdata (fst (AvatarAgent.flip_flash_card card_id
                                (fst (handle_flip_flash_card payload_str w)))))
  = flash_cards (userdata w).
Proof.
  intros Hloads Hid Hne.
  assert (Htruthy : py_truthy (PyStr card_id) = true).
  { cbn. apply String.eqb_neq in Hne. by rewrite Hne. }
  split.
  - rewrite (handle_flip_flash_card_dict _ _ _ Hloads), Hid, Htruthy. cbn [fst].
    rewrite (flip_flash_card_cards _ _ (fst (flip_flash_card (PyStr card_id) w)))
      by apply agent_flip_flash_card_cards.
    by rewrite flip_flash_card_twice_world.
  - rewrite agent_flip_flash_card_cards.
    rewrite (handle_flip_flash_card_dict _ _ _ Hloads), Hid, Htruthy. cbn [fst].
    by rewrite flip_flash_card_twice_world.
Qed.

End Flips.

Section RoundTrips.
Context {P : Platform}.

(** ** Storing, then looking up *)

(** X17: after [add_flash_card], in a world where no stored card had the
    identifier drawn, looking the new card up by its id returns it, and
    looking up any other value returns what it returned before. *)
Theorem add_flash_card_then_get (w : World) (question answer : string) :
  (forall c, c ∈ flash_cards (userdata w) -> FlashCard.id c <> uuid4 (uuid_drawn w)) ->
  exists w1 card,
    add_flash_card question answer w = (w1, inr card) /\
    get_flash_card (PyStr (FlashCard.id card)) w1 = (w1, inr (Some card)) /\
    (forall v, v <> PyStr (FlashCard.id card) ->
               snd (get_flash_card v w1) = snd (get_flash_card v w)).
Proof.
  intros Hfresh. eexists _, _. split; [apply add_flash_card_run|].
  unfold get_flash_card, bind, get_world, ret, find_flash_card.
  cbn [userdata with_flash_cards set_flash_cards flash_cards drew snd FlashCard.id].
  split.
  - rewrite list_find_app_r.
    + cbn. by rewrite String.eqb_refl.
    + apply list_find_None, Forall_forall. intros c Hc Heq.
      apply String.eqb_eq in Heq. by apply (Hfresh c).
  - intros v Hv. do 2 f_equal.
    destruct (list_find _ (flash_cards (userdata w))) as [[i c]|] eqn:Hfind.
    + by rewrite (list_find_app_l _ _ _ _ _ Hfind).
    + rewrite list_find_app_r by done. cbn.
      rewrite decide_False; [done|]. intros Heq. by apply py_str_eq_true in Heq.
Qed.

(** X18: after [add_quiz], in a world where no stored quiz had the
    identifier drawn for the quiz, looking the quiz up by its id returns
    it, and grading it with an empty mapping returns one tuple per input
    question, none selected and none correct. *)
Theorem add_quiz_then_get (w : World) (questions : list QuizQuestionDict.t) :
  (forall q, q ∈ quizzes (userdata w) ->
             Quiz.id q <> uuid4 (ids_needed questions + uuid_drawn w)) ->
  exists w1 quiz results,
    add_quiz questions w = (w1, inr quiz) /\
    get_quiz (PyStr (Quiz.id quiz)) w1 = (w1, inr (Some quiz)) /\
    check_quiz_answers (PyStr (Quiz.id quiz)) (PyDict []) w1 = (w1, inr results) /\
    Forall2 (fun q r =>
               QuizQuestion.text (res_question r) = QuizQuestionDict.text q /\
               res_selected_answer r = None /\ res_is_correct r = None)
            questions results.
Proof.
  intros Hfresh.
  destruct (add_quiz_run questions w) as (quiz & Hrun & Hmatch & Hids).
  assert (Hid : Quiz.id quiz = uuid4 (ids_needed questions + uuid_drawn w)).
  { apply (f_equal last) in Hids. unfold quiz_ids in Hids. rewrite last_snoc in Hids.
    replace (S (ids_needed questions)) with (ids_needed questions + 1) in Hids by lia.
    rewrite seq_app, fmap_app in Hids. cbn in Hids. rewrite last_snoc in Hids.
    injection Hids as ->. f_equal. lia. }
  set (w1 := with_quizzes (quizzes (userdata w) ++ [quiz])
                          (drew (S (ids_needed questions)) w)) in *.
  assert (Hfind : find_quiz (PyStr (Quiz.id quiz)) (userdata w1) = Some quiz).
  { unfold find_quiz. cbn [userdata w1 with_quizzes set_quizzes quizzes].
    rewrite list_find_app_r.
    - cbn. by rewrite String.eqb_refl.
    - apply list_find_None, Forall_forall. intros q Hq Heq.
      apply String.eqb_eq in Heq. apply (Hfresh q Hq). congruence. }
  exists w1, quiz, (grade_question [] <$> Quiz.questions quiz). split_and!.
  - exact Hrun.
  - unfold get_quiz, bind, get_world, ret. by rewrite Hfind.
  - by rewrite check_quiz_answers_run, Hfind.
  - apply Forall2_fmap_r. eapply Forall2_impl; [exact Hmatch|].
    intros q r [Htext _]. unfold compose, grade_question.
    cbn [res_question res_selected_answer res_is_correct dict_get].
    rewrite scan_answers_last. cbn [fst].
    assert (filter (fun a => py_str_eq (QuizAnswer.id a) PyNone = true)
                   (QuizQuestion.answers r) = []) as ->; [|done].
    induction (QuizQuestion.answers r) as [|a l IH]; [done|].
    rewrite filter_cons, decide_False by done. exact IH.
Qed.

End RoundTrips.

Lemma filter_Forall_id {A} (Q : A -> Prop) `{!forall x, Decision (Q x)} (l : list A) :
  Forall Q l -> filter Q l = l.
Proof.
  induction 1 as [|x l Hx _ IH]; [done|].
  by rewrite filter_cons, decide_True, IH.
Qed.

Section MoreInbound.
Context {P : Platform}.

(** ** A submission without answers *)

Lemma grade_question_unanswered (question : QuizQuestion.t) :
  result_truthy (grade_question [] question) = false.
Proof.
  unfold result_truthy, grade_question. cbn [res_is_correct dict_get].
  rewrite scan_answers_last. cbn [fst].
  assert (filter (fun a => py_str_eq (QuizAnswer.id a) PyNone = true)
                 (QuizQuestion.answers question) = []) as ->; [|done].
  induction (QuizQuestion.answers question) as [|a l IH]; [done|].
  rewrite filter_cons, decide_False by done. exact IH.
Qed.

Lemma grade_question_correct (d : list (string * pyval)) (question : QuizQuestion.t) :
  (exists a, a ∈ QuizQuestion.answers question /\ QuizAnswer.is_correct a = true) ->
  is_Some (res_correct_answer (grade_question d question)).
Proof.
  intros (a & Hin & Hc). unfold grade_question. cbn [res_correct_answer].
  rewrite scan_answers_last. cbn [snd].
  assert (Ha : a ∈ filter (fun a => QuizAnswer.is_correct a = true)
                          (QuizQuestion.answers question))
    by (by apply list_elem_of_filter).
  destruct (filter _ _) as [|x l] using rev_ind; [by apply elem_of_nil in Ha|].
  rewrite last_snoc. by eexists.
Qed.

(** X19: a submission for a stored quiz with at least one question that
    carries no answers, an empty mapping or no [answers] key at all,
    grades every question as incorrect.  If each question has an option
    flagged correct and the calls and the speech do not raise, the
    handler replies [success] and appends one flash card per question of
    the quiz, in order, with the question's text and the text of an
    option of it flagged correct. *)
Theorem handle_submit_quiz_unanswered (rm : Room) (w : World) (payload_str : string)
    (d : list (string * pyval)) (quiz : Quiz.t) :
  calls_return ->
  json_loads payload_str = inr (PyDict d) ->
  py_truthy (dict_get d "id" PyNone) = true ->
  dict_get d "answers" (PyDict []) = PyDict [] ->
  find_quiz (dict_get d "id" PyNone) (userdata w) = Some quiz ->
  Quiz.questions quiz <> [] ->
  (forall question, question ∈ Quiz.questions quiz ->
     exists a, a ∈ QuizQuestion.answers question /\ QuizAnswer.is_correct a = true) ->
  exists results w' new,
    check_quiz_answers (dict_get d "id" PyNone) (dict_get d "answers" (PyDict [])) w
    = (w, inr results) /\
    Forall2 (fun question r =>
               res_question r = question /\ res_selected_answer r = None /\
               result_truthy r = false)
            (Quiz.questions quiz) results /\
    handle_submit_quiz rm payload_str w = (w', inr "success") /\
    flash_cards (userdata w') = flash_cards (userdata w) ++ new /\
    Forall2 (fun question card =>
               FlashCard.question card = QuizQuestion.text question /\
               exists c, c ∈ QuizQuestion.answers question /\
                         QuizAnswer.is_correct c = true /\
                         FlashCard.answer card = QuizAnswer.text c)
            (Quiz.questions quiz) new.
Proof.
  intros [Hrpc Hsay] Hloads Hid Hans Hfind Hne Hflagged.
  set (results := grade_question [] <$> Quiz.questions quiz).
  assert (Hcheck : check_quiz_answers (dict_get d "id" PyNone)
                     (dict_get d "answers" (PyDict [])) w = (w, inr results))
    by (by rewrite Hans, check_quiz_answers_run, Hfind).
  assert (Hwrong : Forall (fun r => result_truthy r = false) results).
  { apply Forall_fmap, Forall_forall. intros question _. apply grade_question_unanswered. }
  assert (Hcor : forall r, r ∈ results -> result_truthy r = false ->
                           is_Some (res_correct_answer r)).
  { intros r (question & -> & Hq)%list_elem_of_fmap _.
    by apply grade_question_correct, Hflagged. }
  pose proof (check_quiz_answers_graded _ _ _ _ _ Hcheck) as Hgraded.
  destruct (for_each_feedback_run rm results Hrpc Hgraded Hcor w)
    as (feedback & new & Hloop & _ & Hcards & _).
  exists results. eexists _, new. split_and!.
  - exact Hcheck.
  - apply Forall2_fmap_r, Forall_Forall2_diag, Forall_forall.
    intros question _. unfold compose. split; [done|].
    pose proof (grade_question_unanswered question) as Hq.
    split; [|exact Hq]. unfold result_truthy, grade_question in *.
    cbn [res_selected_answer res_is_correct dict_get] in *.
    rewrite scan_answers_last in *. cbn [fst] in *.
    assert (filter (fun a => py_str_eq (QuizAnswer.id a) PyNone = true)
                   (QuizQuestion.answers question) = []) as ->; [|done].
    clear. induction (QuizQuestion.answers question) as [|a l IH]; [done|].
    rewrite filter_cons, decide_False by done. exact IH.
  - unfold handle_submit_quiz, try_except.
    rewrite (submit_quiz_body_says rm w _ _ _ Hloads Hid Hcheck)
      by (unfold results; by destruct (Quiz.questions quiz)).
    rewrite (bind_inr _ _ _ _ _ Hloop). unfold bind, say. rewrite Hsay. reflexivity.
  - reflexivity.
  - rewrite (filter_Forall_id _ results Hwrong) in Hcards.
    unfold results in Hcards. rewrite Forall2_fmap_l in Hcards.
    eapply Forall2_impl; [exact Hcards|].
    intros question card (Hq & (c & Hc & Ha) & _). split; [done|].
    exists c. destruct (scan_answers_correct _ _ _ Hc) as [Hin Hflag]. done.
Qed.

(** ** What the flip handler does to the store *)

(** X20: for a payload that decodes to a dict, the flip handler replies
    [None] and leaves the world as it was when the id is missing or
    false or is the id of no stored card; otherwise it toggles
    [is_flipped] of the first stored card with that id and changes
    nothing else. *)
Theorem handle_flip_flash_card_effect (payload_str : string) (d : list (string * pyval))
    (w : World) :
  json_loads payload_str = inr (PyDict d) ->
  let card_id := dict_get d "id" PyNone in
  (py_truthy card_id = false -> handle_flip_flash_card payload_str w = (w, inr None)) /\
  ((forall card, card ∈ flash_cards (userdata w) -> PyStr (FlashCard.id card) <> card_id) ->
   handle_flip_flash_card payload_str w = (w, inr None)) /\
  (forall i card,
     py_truthy card_id = true ->
     find_flash_card card_id (userdata w) = Some (i, card) ->
     handle_flip_flash_card payload_str w
     = (with_flash_cards
          (<[i := set_is_flipped (negb (FlashCard.is_flipped card)) card]>
             (flash_cards (userdata w))) w,
        inr None)).
Proof.
  intros Hloads card_id. rewrite (handle_flip_flash_card_dict _ _ _ Hloads). fold card_id.
  split_and!.
  - by intros ->.
  - intros Hno. apply find_flash_card_None in Hno.
    destruct (py_truthy card_id); [|done].
    unfold flip_flash_card, bind, get_world. by rewrite Hno.
  - intros i card -> Hfind. by rewrite (flip_flash_card_found _ _ _ _ Hfind).
Qed.

End MoreInbound.

(** * The further statements on the examples *)

(** The lesson leaves two cards, the first flipped, and one quiz. *)
Example after_lesson_run :
  flash_cards (userdata after_lesson)
  = [FlashCard.mk "uuid-0" "What is tracking?" "Uniform letter spacing" true;
     FlashCard.mk "uuid-5" "What is kerning?" "The space between letter pairs" false] /\
  length (quizzes (userdata after_lesson)) = 1 /\
  length (rpc_log after_lesson) = 3 /\
  length (spoken after_lesson) = 1.
Proof. vm_compute. repeat split; reflexivity. Qed.

Lemma session_ids_distinct_witness :
  NoDup (FlashCard.id <$> flash_cards (userdata after_lesson)).
Proof.
  refine (proj1 (session_ids_distinct (P := teacher)
                   (Some {| room := Some classroom |}) lesson _)).
  apply (bool_decide_unpack _). vm_compute. exact I.
Defined.

Lemma session_lookup_by_own_id_witness :
  get_flash_card (PyStr "uuid-5") after_lesson
  = (after_lesson,
     inr (Some (FlashCard.mk "uuid-5" "What is kerning?"
                             "The space between letter pairs" false))).
Proof.
  refine (proj1 (session_lookup_by_own_id (P := teacher)
                   (Some {| room := Some classroom |}) lesson _)
            (FlashCard.mk "uuid-5" "What is kerning?"
                          "The space between letter pairs" false) _).
  - apply (bool_decide_unpack _). vm_compute. exact I.
  - vm_compute. right. left.
Defined.

Lemma check_quiz_answers_last_wins_witness :
  exists results,
    check_quiz_answers (PyStr "uuid-3") (PyDict [("uuid-2", PyStr "uuid-0")])
      with_kerning_quiz
    = (with_kerning_quiz, inr results) /\ length results = 1.
Proof.
  destruct (check_quiz_answers_last_wins (PyStr "uuid-3") [("uuid-2", PyStr "uuid-0")]
              with_kerning_quiz (Quiz.mk "uuid-3" [kerning_question]))
    as (results & Hrun & Hall).
  - vm_compute. reflexivity.
  - exists results. split; [exact Hrun|].
    apply Forall2_length in Hall. by rewrite <- Hall.
Defined.

Lemma check_quiz_answers_not_a_mapping_witness :
  check_quiz_answers (PyStr "uuid-3") (PyList []) with_kerning_quiz
  = (with_kerning_quiz, inl (no_attribute (PyList []) "get")).
Proof.
  refine (proj1 (check_quiz_answers_not_a_mapping (PyStr "uuid-3") (PyList [])
                   with_kerning_quiz _) (Quiz.mk "uuid-3" [kerning_question]) _ _).
  - discriminate.
  - vm_compute. reflexivity.
  - discriminate.
Defined.

Lemma handle_submit_quiz_turns_down_witness :
  handle_submit_quiz (P := reliable) classroom (demo_dumps (submission "uuid-9" []))
    with_kerning_quiz
  = (with_kerning_quiz, inr "error: Quiz not found").
Proof.
  refine (proj1 (proj2 (proj2 (proj2
            (handle_submit_quiz_turns_down (P := reliable) classroom _ with_kerning_quiz))))
            [("id", PyStr "uuid-9"); ("answers", PyDict [])] _ _ _).
  - vm_compute. reflexivity.
  - reflexivity.
  - vm_compute. reflexivity.
Defined.

Lemma create_flash_card_with_peer_witness :
  snd (create_flash_card (P := reliable) "What is leading?" "Line spacing" with_one_card)
  = inr "I've created a flash card with the question: 'What is leading?'".
Proof.
  destruct (create_flash_card_with_peer (P := reliable) with_one_card
              "What is leading?" "Line spacing"
              {| room := Some classroom |} classroom "student" student [])
    as [Hrun _]; [reflexivity..|].
  by rewrite Hrun.
Defined.

Lemma create_quiz_stores_witness :
  exists quiz,
    quizzes (userdata (fst (create_quiz (P := reliable) kerning_quiz offline))) = [quiz].
Proof.
  destruct (create_quiz_stores (P := reliable) offline kerning_quiz)
    as (quiz & _ & Hnone & _).
  destruct Hnone as (status & Hrun & _); [vm_compute; exact I|].
  exists quiz. by rewrite Hrun.
Defined.

Lemma agent_flip_flash_card_unknown_witness :
  AvatarAgent.flip_flash_card (P := reliable) "uuid-7" with_one_card
  = (with_one_card, inr "Flash card with ID uuid-7 not found.").
Proof.
  apply (agent_flip_flash_card_unknown (P := reliable)).
  intros card Hin. apply list_elem_of_singleton in Hin. subst card. vm_compute. discriminate.
Defined.

Lemma agent_flip_flash_card_known_witness :
  snd (AvatarAgent.flip_flash_card (P := reliable) "uuid-0" with_one_card)
  = inr "I've flipped the flash card to show the answer".
Proof.
  destruct (agent_flip_flash_card_known (P := reliable) with_one_card "uuid-0" 0
              (FlashCard.mk "uuid-0" "What is tracking?" "Uniform letter spacing" false))
    as [_ Hpeer]; [vm_compute; reflexivity|].
  by rewrite (Hpeer {| room := Some classroom |} classroom "student" student []).
Defined.

Lemma handle_submit_quiz_success_path_witness :
  exists new,
    flash_cards (userdata (fst (handle_submit_quiz (P := reliable) classroom
                                  wrong_submission with_kerning_quiz))) = new /\
    Forall2 card_for [kerning_answered_wrong] new.
Proof.
  destruct (handle_submit_quiz_success_path (P := reliable) classroom with_kerning_quiz
              wrong_submission
              [("id", PyStr "uuid-3"); ("answers", PyDict [("uuid-2", PyStr "uuid-0")])]
              [kerning_answered_wrong])
    as (new & feedback & Hrun & _ & Hcards & _).
  - split; intros; [by exists ""|reflexivity].
  - vm_compute. reflexivity.
  - vm_compute. reflexivity.
  - vm_compute. reflexivity.
  - discriminate.
  - intros r Hin _. apply list_elem_of_singleton in Hin. subst r. by eexists.
  - exists new. split; [by rewrite Hrun|exact Hcards].
Defined.


Lemma handle_submit_quiz_call_raises_witness :
  snd (handle_submit_quiz (P := peer_silent) classroom wrong_submission with_kerning_quiz)
  = inr "error: Response timeout".
Proof.
  rewrite (handle_submit_quiz_call_raises (P := peer_silent) classroom with_kerning_quiz
             wrong_submission
             [("id", PyStr "uuid-3"); ("answers", PyDict [("uuid-2", PyStr "uuid-0")])]
             [] [] kerning_answered_wrong spacing_option student
             (RpcError "Response timeout")).
  - reflexivity.
  - vm_compute. reflexivity.
  - vm_compute. reflexivity.
  - vm_compute. reflexivity.
  - constructor.
  - reflexivity.
  - reflexivity.
  - reflexivity.
  - reflexivity.
Defined.

Lemma flips_undo_each_other_witness :
  flash_cards (userdata (fst (handle_flip_flash_card (P := tutor)
                                (demo_dumps (flip_request "uuid-0"))
                                (fst (AvatarAgent.flip_flash_card (P := tutor) "uuid-0"
                                        with_one_card)))))
  = flash_cards (userdata with_one_card).
Proof.
  refine (proj1 (flips_undo_each_other (P := tutor) with_one_card "uuid-0"
                   (demo_dumps (flip_request "uuid-0")) [("id", PyStr "uuid-0")] _ _ _)).
  - vm_compute. reflexivity.
  - reflexivity.
  - discriminate.
Defined.

Lemma add_flash_card_then_get_witness :
  exists w1 card,
    add_flash_card (P := reliable) "What is leading?" "Line spacing" with_one_card
    = (w1, inr card) /\
    get_flash_card (PyStr (FlashCard.id card)) w1 = (w1, inr (Some card)).
Proof.
  destruct (add_flash_card_then_get (P := reliable) with_one_card
              "What is leading?" "Line spacing")
    as (w1 & card & Hadd & Hget & _).
  - intros c Hin. apply list_elem_of_singleton in Hin. subst c. vm_compute. discriminate.
  - by exists w1, card.
Defined.

Lemma add_quiz_then_get_witness :
  exists w1 quiz,
    add_quiz (P := reliable) kerning_quiz with_empty_quiz = (w1, inr quiz) /\
    get_quiz (PyStr (Quiz.id quiz)) w1 = (w1, inr (Some quiz)).
Proof.
  destruct (add_quiz_then_get (P := reliable) with_empty_quiz kerning_quiz)
    as (w1 & quiz & results & Hadd & Hget & _).
  - intros q Hin. apply list_elem_of_singleton in Hin. subst q. vm_compute. discriminate.
  - by exists w1, quiz.
Defined.

Lemma handle_submit_quiz_unanswered_witness :
  exists w' new,
    handle_submit_quiz (P := tutor) classroom (demo_dumps (submission "uuid-3" []))
      with_kerning_quiz
    = (w', inr "success") /\
    flash_cards (userdata w') = new /\ length new = 1.
Proof.
  destruct (handle_submit_quiz_unanswered (P := tutor) classroom with_kerning_quiz
              (demo_dumps (submission "uuid-3" []))
              [("id", PyStr "uuid-3"); ("answers", PyDict [])]
              (Quiz.mk "uuid-3" [kerning_question]))
    as (results & w' & new & _ & _ & Hrun & Hcards & Hall).
  - split; intros; [by exists ""|reflexivity].
  - vm_compute. reflexivity.
  - reflexivity.
  - reflexivity.
  - vm_compute. reflexivity.
  - discriminate.
  - intros question Hin. apply list_elem_of_singleton in Hin. subst question.
    exists spacing_option. split; [|reflexivity]. right. left.
  - exists w', new. split; [exact Hrun|]. split; [exact Hcards|].
    apply Forall2_length in Hall. by rewrite <- Hall.
Defined.

Lemma handle_flip_flash_card_effect_witness :
  handle_flip_flash_card (P := tutor) (demo_dumps (flip_request "uuid-0")) with_one_card
  = (with_flash_cards
       [FlashCard.mk "uuid-0" "What is tracking?" "Uniform letter spacing" true]
       with_one_card,
     inr None).
Proof.
  refine (proj2 (proj2 (handle_flip_flash_card_effect (P := tutor)
            (demo_dumps (flip_request "uuid-0")) [("id", PyStr "uuid-0")] with_one_card _))
            0 (FlashCard.mk "uuid-0" "What is tracking?" "Uniform letter spacing" false)
            _ _).
  - vm_compute. reflexivity.
  - reflexivity.
  - vm_compute. reflexivity.
Defined.
